(** * conpot/core/file_io.py : the protocol jail, its listing formatter,
      the upload writer and the upload-name sanitizer.

    A shallow embedding of [conpot.core.file_io].  Python exceptions are
    values of [exn] carried by the error monad [result]; the PyFilesystem2
    objects the module talks to ([root_fs], [home_fs]) are an interface
    record [FS] plus an in-memory instance [MemFS] used to run the code on
    concrete jails. *)

From Stdlib Require Import ZArith String Ascii List Bool Lia DecimalString.
From stdpp Require Import base option list gmap strings.

Local Open Scope Z_scope.
Local Open Scope string_scope.
#[local] Arguments String.append !s1 s2 : simpl nomatch.

(** ** Exceptions and the error monad *)

(** The [fs.errors] classes that the backing store raises. *)
Inductive fs_error : Set :=
| ResourceNotFound
| DirectoryExists
| DirectoryExpected
| IllegalBackReference.

(** The exceptions that can leave a function of this module. *)
Inductive exn : Set :=
| AssertionError
| TypeError
| ValueError
| FileExistsError
| NotImplementedError
| KeyError
| FSError (e : fs_error).

Inductive result (A : Type) : Type :=
| Ok (a : A)
| Raise (e : exn).
Arguments Ok {A} a.
Arguments Raise {A} e.

Definition bind {A B : Type} (c : result A) (k : A -> result B) : result B :=
  match c with
  | Ok a => k a
  | Raise e => Raise e
  end.

Notation "'let*' x ':=' c 'in' k" := (bind c (fun x => k))
  (at level 10, x pattern, c at level 100, k at level 200).

(** [assert cond] *)
Definition assert (cond : bool) : result unit :=
  if cond then Ok tt else Raise AssertionError.

(** Truthiness of a [str]: the empty string is false. *)
Definition truthy (s : string) : bool :=
  match s with
  | EmptyString => false
  | String _ _ => true
  end.

(** ** The stat dictionary

    [info.raw['stat']] is a dictionary with one entry per [st_*] field of
    [os.stat_result]; the fields the module reads, and the two ownership
    fields, are kept.  Times are whole seconds. *)
Record stat_dict : Set := {
  st_mode : Z;
  st_nlink : Z;
  st_size : Z;
  st_mtime : Z;
  st_uid : Z;
  st_gid : Z
}.

(** ** The backing-store interface

    The three queries [AbstractFS] sends to [home_fs]:
    [isdir(path)], [getinfo(path, namespaces='stat').raw['stat']] and
    [getinfo(path, namespaces=['link']).raw['link']['target']]
    (the target is [None] for an entry that is not a symbolic link). *)
Record FS : Type := {
  fs_isdir : string -> result bool;
  fs_getinfo_stat : string -> result stat_dict;
  fs_getinfo_link : string -> result (option string)
}.

(** ** AbstractFS

    The attributes [_root], [_home], [_cwd] and [home_fs] of an instance.
    [root_fs] is the store the constructor works on and is threaded through
    [__init__]; [data_fs] is stored by the constructor and never read. *)
Record AbstractFS : Type := {
  _root : string;
  _home : string;
  _cwd : string;
  home_fs : FS
}.

Definition set_cwd (self : AbstractFS) (cwd : string) : AbstractFS :=
  {| _root := _root self; _home := _home self; _cwd := cwd;
     home_fs := home_fs self |}.

(** [AbstractFS.chdir].  In the [else] branch the [FSError] object is
    built and dropped: nothing is raised and [self] is left as it was. *)
Definition chdir (self : AbstractFS) (path : string) : result AbstractFS :=
  let* _ := assert (truthy path) in
  let* d := fs_isdir (home_fs self) (_cwd self +:+ path) in
  if d then Ok (set_cwd self (_cwd self +:+ path))
  else Ok self.

(** [AbstractFS.getcwd] *)
Definition getcwd (self : AbstractFS) : string := _cwd self.

(** [AbstractFS.stat] *)
Definition stat (self : AbstractFS) (path : string) : result stat_dict :=
  let* _ := assert (truthy path) in
  fs_getinfo_stat (home_fs self) path.

(** [AbstractFS.readlink]: the query is sent for ['.'], whatever [path] is. *)
Definition readlink (self : AbstractFS) (path : string) : result (option string) :=
  let* _ := assert (truthy path) in
  fs_getinfo_link (home_fs self) ".".

(** A run of [chdir] calls; the first exception ends the run. *)
Fixpoint chdir_seq (self : AbstractFS) (paths : list string) : result AbstractFS :=
  match paths with
  | [] => Ok self
  | p :: ps => let* self' := chdir self p in chdir_seq self' ps
  end.

(** ** Paths of the backing store ([fs.path]) *)

(** [path.split('/')] *)
Fixpoint split_slash (s : string) : list string :=
  match s with
  | EmptyString => [EmptyString]
  | String c rest =>
      if Ascii.eqb c "/" then EmptyString :: split_slash rest
      else match split_slash rest with
           | [] => [String c EmptyString]
           | x :: xs => String c x :: xs
           end
  end.

(** The loop of [fs.path.normpath]: [''] and ['.'] are skipped, ['..'] pops
    the last component kept so far, and popping from nothing is
    [IllegalBackReference].  [kept] is the stack, last component first. *)
Fixpoint norm_components (todo kept : list string) : option (list string) :=
  match todo with
  | [] => Some (rev kept)
  | c :: todo' =>
      if String.eqb c "" || String.eqb c "." then norm_components todo' kept
      else if String.eqb c ".." then
        match kept with
        | [] => None
        | _ :: kept' => norm_components todo' kept'
        end
      else norm_components todo' (c :: kept)
  end.

(** [relpath(normpath(path))] as its list of components. *)
Definition normpath (path : string) : option (list string) :=
  norm_components (split_slash path) [].

(** [a] is [b] or an ancestor of [b]. *)
Fixpoint is_prefix (a b : list string) : bool :=
  match a, b with
  | [], _ => true
  | x :: a', y :: b' => String.eqb x y && is_prefix a' b'
  | _ :: _, [] => false
  end.

(** A path denotes a location at or below [home] when its ['.']/['..']
    resolution exists and starts with the resolution of [home]. *)
Definition at_or_below (home path : string) : bool :=
  match normpath home, normpath path with
  | Some h, Some p => is_prefix h p
  | _, _ => false
  end.

(** ** An in-memory backing store

    A tree of the store is a finite map from normalised paths (lists of
    components, [[]] being the root of the tree) to nodes. *)
Inductive node : Set :=
| File (st : stat_dict) (data : list Byte.byte)
| Dir (st : stat_dict)
| Symlink (st : stat_dict) (target : string).

Definition node_stat (n : node) : stat_dict :=
  match n with
  | File st _ => st
  | Dir st => st
  | Symlink st _ => st
  end.

Definition node_target (n : node) : option string :=
  match n with
  | Symlink _ t => Some t
  | _ => None
  end.

Definition node_is_dir (n : node) : bool :=
  match n with
  | Dir _ => true
  | _ => false
  end.

Abbreviation MemFS := (gmap (list string) node).

(** [SubFS.delegate_path]: normalise, then graft below the sub-directory. *)
Definition delegate_path (sub : list string) (path : string) : result (list string) :=
  match normpath path with
  | Some comps => Ok (sub ++ comps)%list
  | None => Raise (FSError IllegalBackReference)
  end.

(** [parent_fs.opendir(sub)], the object [makedir] returns: the view of the
    tree below [sub].  A path that climbs above the view is
    [IllegalBackReference]; a missing entry is no directory and has no
    metadata ([ResourceNotFound]). *)
Definition SubFS (m : MemFS) (sub : list string) : FS := {|
  fs_isdir path :=
    let* p := delegate_path sub path in
    Ok (match m !! p with Some n => node_is_dir n | None => false end);
  fs_getinfo_stat path :=
    let* p := delegate_path sub path in
    match m !! p with
    | Some n => Ok (node_stat n)
    | None => Raise (FSError ResourceNotFound)
    end;
  fs_getinfo_link path :=
    let* p := delegate_path sub path in
    match m !! p with
    | Some n => Ok (node_target n)
    | None => Raise (FSError ResourceNotFound)
    end
|}.

(** A node is strictly below [dst] when [dst] is a proper prefix of its path. *)
Definition strictly_below (dst k : list string) : bool :=
  is_prefix dst k && negb (Nat.eqb (length k) (length dst)).

(** Modelled from the spec: the backing store's exclusive creation of a
    directory, PyFilesystem2's [makedir(path)] with the default
    [recreate=False], which is not part of this repository.  The root and any
    existing entry are [DirectoryExists], a missing parent directory is
    [ResourceNotFound]; the new directory gets the metadata [st] and the call
    returns the path [opendir] is applied to. *)
Definition makedir (m : MemFS) (st : stat_dict) (path : string)
  : result (MemFS * list string) :=
  let* p := delegate_path [] path in
  match p with
  | [] => Raise (FSError DirectoryExists)
  | _ :: _ =>
      match m !! p with
      | Some _ => Raise (FSError DirectoryExists)
      | None =>
          match removelast p with
          | [] => Ok (<[p := Dir st]> m, p)
          | parent =>
              match m !! parent with
              | Some (Dir _) => Ok (<[p := Dir st]> m, p)
              | _ => Raise (FSError ResourceNotFound)
              end
          end
      end
  end.

(** Modelled from the spec: the backing store's recursive mirror copy,
    PyFilesystem2's [mirror(src_fs, dst_fs)], which is not part of this
    repository; [dst_fs] is the sub-tree at [dst].  Afterwards the entries
    below [dst] are those of the source tree (files with their bytes,
    directories, links with their targets) at the same relative paths;
    whatever else was below [dst] is removed and the rest of the store is left
    alone. *)
Definition mirror (src m : MemFS) (dst : list string) : MemFS :=
  kmap (app dst) (delete [] src)
  ∪ filter (fun kv => strictly_below dst kv.1 = false) m.

(** [AbstractFS._add_protocol]: the state is the store [root_fs] lives in. *)
Definition _add_protocol (root_fs : MemFS) (dir_st : stat_dict) (cwd : string)
    (src_root : MemFS) : result (FS * MemFS) :=
  let temp_fs := src_root in
  let* (root_fs1, sub) := makedir root_fs dir_st cwd in
  let root_fs2 := mirror temp_fs root_fs1 sub in
  Ok (SubFS root_fs2 sub, root_fs2).

(** [AbstractFS.__init__] *)
Definition __init__ (fs_root : MemFS) (dir_st : stat_dict)
    (protocol_name : string) (protocol_src_dir : MemFS)
  : result (AbstractFS * MemFS) :=
  let root := "/" in
  let home := root +:+ protocol_name in
  let cwd := home in
  let* (home_fs', fs_root') := _add_protocol fs_root dir_st cwd protocol_src_dir in
  Ok ({| _root := root; _home := home; _cwd := cwd; home_fs := home_fs' |},
      fs_root').

(** ** Python text formatting *)

(** [str(n)] for an [int] *)
Definition str_of_Z (z : Z) : string := NilZero.string_of_int (Z.to_int z).

(** [n] copies of the character [c] *)
Fixpoint fill (n : nat) (c : ascii) : string :=
  match n with
  | O => EmptyString
  | S n' => String c (fill n' c)
  end.

(** ['%ws' % s]: right-justified in at least [w] columns *)
Definition rjust (w : nat) (s : string) : string :=
  fill (w - String.length s) " " +:+ s.

(** ['%-ws' % s]: left-justified in at least [w] columns *)
Definition ljust (w : nat) (s : string) : string :=
  s +:+ fill (w - String.length s) " ".

(** Zero-padded decimal of a field of [strftime] *)
Definition zpad (w : nat) (z : Z) : string :=
  let s := str_of_Z z in fill (w - String.length s) "0" +:+ s.

(** ** [stat.filemode] *)

Definition S_IFMT (mode : Z) : Z := Z.land mode 61440.
Definition S_IFSOCK : Z := 49152.
Definition S_IFLNK : Z := 40960.
Definition S_IFREG : Z := 32768.
Definition S_IFBLK : Z := 24576.
Definition S_IFDIR : Z := 16384.
Definition S_IFCHR : Z := 8192.
Definition S_IFIFO : Z := 4096.

Definition has_bits (mode bits : Z) : bool := negb (Z.eqb (Z.land mode bits) 0).

Definition filetype (mode : Z) : ascii :=
  let t := S_IFMT mode in
  if Z.eqb t S_IFREG then "-"
  else if Z.eqb t S_IFDIR then "d"
  else if Z.eqb t S_IFLNK then "l"
  else if Z.eqb t S_IFBLK then "b"
  else if Z.eqb t S_IFCHR then "c"
  else if Z.eqb t S_IFIFO then "p"
  else if Z.eqb t S_IFSOCK then "s"
  else "?".

(** read, write and execute characters of one class; [special] is the
    set-uid, set-gid or sticky bit and [lo], [up] its two letters *)
Definition rwx (mode r w x special : Z) (lo up : ascii) : string :=
  String (if has_bits mode r then "r" else "-")
 (String (if has_bits mode w then "w" else "-")
 (String (if has_bits mode special
          then (if has_bits mode x then lo else up)
          else (if has_bits mode x then "x" else "-"))
  EmptyString))%char.

Definition filemode (mode : Z) : string :=
  String (filetype mode)
    (rwx mode 256 128 64 2048 "s" "S"
     +:+ rwx mode 32 16 8 1024 "s" "S"
     +:+ rwx mode 4 2 1 512 "t" "T").

(** ** [time.gmtime] and [time.strftime] *)

Record struct_time : Set := {
  tm_year : Z;
  tm_mon : Z;
  tm_mday : Z;
  tm_hour : Z;
  tm_min : Z;
  tm_sec : Z
}.

(** Year, month and day of the proleptic Gregorian calendar for a number of
    days since 1970-01-01. *)
Definition civil_from_days (days : Z) : Z * Z * Z :=
  let z := days + 719468 in
  let era := z / 146097 in
  let doe := z - era * 146097 in
  let yoe := (doe - doe / 1460 + doe / 36524 - doe / 146096) / 365 in
  let doy := doe - (365 * yoe + yoe / 4 - yoe / 100) in
  let mp := (5 * doy + 2) / 153 in
  let d := doy - (153 * mp + 2) / 5 + 1 in
  let m := if Z.ltb mp 10 then mp + 3 else mp - 9 in
  let y := yoe + era * 400 + (if Z.leb m 2 then 1 else 0) in
  (y, m, d).

Definition gmtime (secs : Z) : struct_time :=
  let days := secs / 86400 in
  let rest := secs mod 86400 in
  let '(y, m, d) := civil_from_days days in
  {| tm_year := y; tm_mon := m; tm_mday := d;
     tm_hour := rest / 3600; tm_min := (rest mod 3600) / 60;
     tm_sec := rest mod 60 |}.

(** One conversion of [strftime]; a character that is no conversion of the
    formats used here is copied with its [%]. *)
Definition directive (c : ascii) (t : struct_time) : string :=
  if Ascii.eqb c "Y" then zpad 4 (tm_year t)
  else if Ascii.eqb c "m" then zpad 2 (tm_mon t)
  else if Ascii.eqb c "d" then zpad 2 (tm_mday t)
  else if Ascii.eqb c "H" then zpad 2 (tm_hour t)
  else if Ascii.eqb c "M" then zpad 2 (tm_min t)
  else if Ascii.eqb c "S" then zpad 2 (tm_sec t)
  else if Ascii.eqb c "%" then "%"
  else String "%" (String c EmptyString).

Fixpoint strftime (fmt : string) (t : struct_time) : string :=
  match fmt with
  | EmptyString => EmptyString
  | String a rest =>
      if Ascii.eqb a "%" then
        match rest with
        | EmptyString => String a EmptyString
        | String c rest' => directive c t +:+ strftime rest' t
        end
      else String a (strftime rest t)
  end.

(** Modelled from the spec: [months_map] of [conpot.protocols.ftp.ftp_utils],
    the fixed 12-entry table of month abbreviations; a key outside 1..12 is a
    [KeyError], which [time.gmtime] never produces. *)
Definition months_map (mon : Z) : option string :=
  match mon with
  | 1 => Some "Jan" | 2 => Some "Feb" | 3 => Some "Mar" | 4 => Some "Apr"
  | 5 => Some "May" | 6 => Some "Jun" | 7 => Some "Jul" | 8 => Some "Aug"
  | 9 => Some "Sep" | 10 => Some "Oct" | 11 => Some "Nov" | 12 => Some "Dec"
  | _ => None
  end.

(** ** [AbstractFS.format_list] *)

Definition SIX_MONTHS : Z := 180 * 24 * 60 * 60.

Definition CRLF : string := String "013" (String "010" EmptyString).

(** [st[['st_mtime']]]: the subscript is a list, which a dictionary cannot
    hash, so the lookup raises [TypeError] whatever the dictionary holds. *)
Definition getitem_list_key (st : stat_dict) : result Z := Raise TypeError.

(** [months_map[mon]] *)
Definition months_map_getitem (mon : Z) : result string :=
  match months_map mon with
  | Some name => Ok name
  | None => Raise KeyError
  end.

(** ["%s %s" % (months_map[mtime.tm_mon], time.strftime(fmtstr, mtime))] *)
Definition format_mtime (fmtstr : string) (mtime : struct_time) : result string :=
  let* month := months_map_getitem (tm_mon mtime) in
  Ok (month +:+ " " +:+ strftime fmtstr mtime).

(** ["%s %3s %-8s %-8s %8s %s %s\r\n" % (permission, nlinks, uname, gname,
    size, mtimestr, basename)] *)
Definition format_line (permission : string) (nlinks : Z) (uname gname : string)
    (size : Z) (mtimestr basename : string) : string :=
  permission +:+ " " +:+ rjust 3 (str_of_Z nlinks) +:+ " "
  +:+ ljust 8 uname +:+ " " +:+ ljust 8 gname +:+ " "
  +:+ rjust 8 (str_of_Z size) +:+ " " +:+ mtimestr +:+ " " +:+ basename
  +:+ CRLF.

(** [basename + " -> " + self.readlink(file)]: adding [None] to a [str] is
    a [TypeError]. *)
Definition symlink_name (self : AbstractFS) (basename file : string) : result string :=
  let* target := readlink self file in
  match target with
  | Some t => Ok (basename +:+ " -> " +:+ t)
  | None => Raise TypeError
  end.

(** The body of the [for] loop for one [basename]: [Ok (Some line)] when the
    iteration reaches [yield line], [Ok None] when it ends without a
    [yield].  The assignment of [line] and the [yield] are inside the
    [if] that tests for a symbolic link. *)
Definition format_entry (self : AbstractFS) (now : Z) (basedir basename : string)
  : result (option string) :=
  let file := basedir +:+ basename in
  let* st := stat self file in
  let permission := filemode (st_mode st) in
  let nlinks := st_nlink st in
  let size := st_size st in
  let uname := "owner" in
  let gname := "group" in
  let mtime := gmtime (st_mtime st) in
  let* mt := getitem_list_key st in
  let fmtstr := if Z.gtb (now - mt) SIX_MONTHS then "%d  %Y" else "%d %H:%M" in
  let* mtimestr := format_mtime fmtstr mtime in
  if Z.eqb (Z.land (st_mode st) 61440) S_IFLNK then
    let* basename' := symlink_name self basename file in
    let line := format_line permission nlinks uname gname size mtimestr basename' in
    Ok (Some line)
  else Ok None.

(** One [next()] on the generator whose loop still has [listing] to visit. *)
Inductive gen_step : Type :=
| Yield (line : string) (rest : list string)
| GenRaise (e : exn)
| StopIteration.

Fixpoint format_list_next (self : AbstractFS) (now : Z) (basedir : string)
    (listing : list string) : gen_step :=
  match listing with
  | [] => StopIteration
  | basename :: rest =>
      match format_entry self now basedir basename with
      | Raise e => GenRaise e
      | Ok (Some line) => Yield line rest
      | Ok None => format_list_next self now basedir rest
      end
  end.

(** The generator run to its end: the lines it yields, and the exception
    that stopped it, if any. *)
Fixpoint format_list (self : AbstractFS) (now : Z) (basedir : string)
    (listing : list string) : list string * option exn :=
  match listing with
  | [] => ([], None)
  | basename :: rest =>
      match format_entry self now basedir basename with
      | Raise e => ([], Some e)
      | Ok (Some line) =>
          let '(lines, e) := format_list self now basedir rest in
          (line :: lines, e)
      | Ok None => format_list self now basedir rest
      end
  end.

(** ** [sanitize_file_name] *)

(** The value of [datetime.now()]: a naive local date and time. *)
Record datetime : Set := {
  year : Z;
  month : Z;
  day : Z;
  hour : Z;
  minute : Z;
  second : Z;
  microsecond : Z
}.

Definition timetuple (dt : datetime) : struct_time :=
  {| tm_year := year dt; tm_mon := month dt; tm_mday := day dt;
     tm_hour := hour dt; tm_min := minute dt; tm_sec := second dt |}.

(** The ranges of the fields of a [datetime]. *)
Definition valid_datetime (dt : datetime) : bool :=
  ((1 <=? year dt) && (year dt <=? 9999)
   && (1 <=? month dt) && (month dt <=? 12)
   && (1 <=? day dt) && (day dt <=? 31)
   && (0 <=? hour dt) && (hour dt <=? 23)
   && (0 <=? minute dt) && (minute dt <=? 59)
   && (0 <=? second dt) && (second dt <=? 59)
   && (0 <=? microsecond dt) && (microsecond dt <=? 999999))%Z.

Definition is_leap (y : Z) : bool :=
  ((y mod 4 =? 0) && (negb (y mod 100 =? 0) || (y mod 400 =? 0)))%Z.

Definition days_before_year (y : Z) : Z :=
  let y' := y - 1 in y' * 365 + y' / 4 - y' / 100 + y' / 400.

Definition days_before_month (y m : Z) : Z :=
  nth (Z.to_nat m) [0; 0; 31; 59; 90; 120; 151; 181; 212; 243; 273; 304; 334] 0
  + (if (2 <? m)%Z && is_leap y then 1 else 0).

(** [datetime.toordinal] *)
Definition toordinal (dt : datetime) : Z :=
  days_before_year (year dt) + days_before_month (year dt) (month dt) + day dt.

(** [dt1 - dt2] of two naive datetimes, in microseconds. *)
Definition datetime_sub (dt1 dt2 : datetime) : Z :=
  ((toordinal dt1 - toordinal dt2) * 86400
   + ((second dt1 + minute dt1 * 60 + hour dt1 * 3600)
      - (second dt2 + minute dt2 * 60 + hour dt2 * 3600))) * 1000000
  + (microsecond dt1 - microsecond dt2).

Section Sanitize.
(** [slugify.slugify], the third-party slug function. *)
Variable slugify : string -> string.

(** [now] is the value [datetime.now()] returns when the call is made. *)
Definition sanitize_file_name (now : datetime) (name : string) : string :=
  strftime "%Y-%m-%d %H:%M:%S" (timetuple now) +:+ " - " +:+ slugify name.
End Sanitize.

(** ** [FileWriter]

    The files the writer reaches through the built-in [open] form the store:
    a finite map from file names to the bytes on disk.  A file object keeps
    the bytes written since the last flush. *)
Module FileWriter.

Record file_obj : Set := {
  f_name : string;
  f_pending : list Byte.byte;
  closed : bool
}.

Record t : Set := {
  name : string;
  _f : file_obj
}.

(** [open(name, 'xb')]: exclusive creation of an empty file. *)
Definition open_xb (nm : string) (disk : gmap string (list Byte.byte))
  : result (file_obj * gmap string (list Byte.byte)) :=
  match disk !! nm with
  | Some _ => Raise FileExistsError
  | None =>
      Ok ({| f_name := nm; f_pending := []; closed := false |},
          <[nm := []]> disk)
  end.

(** [f.flush()]: the pending bytes go to the end of the file. *)
Definition file_flush (f : file_obj) (disk : gmap string (list Byte.byte))
  : result (file_obj * gmap string (list Byte.byte)) :=
  if closed f then Raise ValueError
  else Ok ({| f_name := f_name f; f_pending := []; closed := false |},
           alter (fun old => old ++ f_pending f)%list (f_name f) disk).

(** [f.write(data)]: buffered, returns the number of bytes taken. *)
Definition file_write (f : file_obj) (data : list Byte.byte)
  : result (file_obj * Z) :=
  if closed f then Raise ValueError
  else Ok ({| f_name := f_name f; f_pending := (f_pending f ++ data)%list;
              closed := false |},
           Z.of_nat (length data)).

(** [f.close()]: flush, then mark closed. *)
Definition file_close (f : file_obj) (disk : gmap string (list Byte.byte))
  : file_obj * gmap string (list Byte.byte) :=
  if closed f then (f, disk)
  else ({| f_name := f_name f; f_pending := []; closed := true |},
        alter (fun old => old ++ f_pending f)%list (f_name f) disk).

Definition _open_file (nm : string) (disk : gmap string (list Byte.byte))
  : result (file_obj * gmap string (list Byte.byte)) :=
  open_xb nm disk.

Definition __init__ (file_name : string) (disk : gmap string (list Byte.byte))
  : result (t * gmap string (list Byte.byte)) :=
  let* (f, disk') := _open_file file_name disk in
  Ok ({| name := file_name; _f := f |}, disk').

(** A file object is always true, so [if self._f] always flushes. *)
Definition _flush (self : t) (disk : gmap string (list Byte.byte))
  : result (t * gmap string (list Byte.byte)) :=
  let* (f, disk') := file_flush (_f self) disk in
  Ok ({| name := name self; _f := f |}, disk').

Definition write_chunk (self : t) (data : list Byte.byte) : result (t * Z) :=
  let* (f, bytes_written) := file_write (_f self) data in
  Ok ({| name := name self; _f := f |}, bytes_written).

Definition __del__ (self : t) (disk : gmap string (list Byte.byte))
  : t * gmap string (list Byte.byte) :=
  if negb (closed (_f self)) then
    let '(f, disk') := file_close (_f self) disk in
    ({| name := name self; _f := f |}, disk')
  else (self, disk).

(** [write_chunk] for each chunk in turn; the counts returned, in order. *)
Fixpoint write_chunks (self : t) (chunks : list (list Byte.byte))
  : result (t * list Z) :=
  match chunks with
  | [] => Ok (self, [])
  | data :: more =>
      let* (self1, n) := write_chunk self data in
      let* (self2, ns) := write_chunks self1 more in
      Ok (self2, n :: ns)
  end.

(** A whole upload: open, write the chunks, release the writer. *)
Definition upload (file_name : string) (chunks : list (list Byte.byte))
    (disk : gmap string (list Byte.byte))
  : result (list Z * gmap string (list Byte.byte)) :=
  let* (w, disk1) := __init__ file_name disk in
  let* (w', ns) := write_chunks w chunks in
  let '(_, disk2) := __del__ w' disk1 in
  Ok (ns, disk2).

End FileWriter.

(** * A concrete jail

    A source directory holding the file [music.mp3], the directory [docs]
    and the symbolic link [link -> music.mp3], mirrored into the jail of the
    protocol [ftp] of an empty root store. *)

Definition demo_file_stat : stat_dict :=
  {| st_mode := 33188; st_nlink := 1; st_size := 7045120;
     st_mtime := 1662090420; st_uid := 1000; st_gid := 1000 |}.

Definition demo_dir_stat : stat_dict :=
  {| st_mode := 16877; st_nlink := 2; st_size := 4096;
     st_mtime := 1662090420; st_uid := 1000; st_gid := 1000 |}.

Definition demo_link_stat : stat_dict :=
  {| st_mode := 41471; st_nlink := 1; st_size := 9;
     st_mtime := 1662090420; st_uid := 1000; st_gid := 1000 |}.

Definition demo_bytes : list Byte.byte := [Byte.x49; Byte.x44; Byte.x33].

Definition demo_src : MemFS :=
  <[ ["music.mp3"] := File demo_file_stat demo_bytes ]>
  (<[ ["docs"] := Dir demo_dir_stat ]>
  (<[ ["link"] := Symlink demo_link_stat "music.mp3" ]>
  (<[ [] := Dir demo_dir_stat ]> ∅))).

Definition demo_store : MemFS :=
  mirror demo_src (<[ ["ftp"] := Dir demo_dir_stat ]> ∅) ["ftp"].

Definition demo_jail : AbstractFS :=
  {| _root := "/"; _home := "/ftp"; _cwd := "/ftp";
     home_fs := SubFS demo_store ["ftp"] |}.

(** The decimal value of a string of digits. *)
Fixpoint parse_digits (s : string) (acc : Z) : Z :=
  match s with
  | EmptyString => acc
  | String c rest => parse_digits rest (10 * acc + (Z.of_nat (nat_of_ascii c) - 48))
  end.

(** The text [YYYY-MM-DD HH:MM:SS] of a clock reading, field by field. *)
Definition timestamp_text (dt : datetime) : string :=
  zpad 4 (year dt) +:+ "-" +:+ zpad 2 (month dt) +:+ "-" +:+ zpad 2 (day dt)
  +:+ " " +:+ zpad 2 (hour dt) +:+ ":" +:+ zpad 2 (minute dt) +:+ ":"
  +:+ zpad 2 (second dt).

(** The parent of the new directory is the root or an existing directory. *)
Definition parent_is_dir (m : MemFS) (p : list string) : Prop :=
  removelast p = [] \/ exists st, m !! removelast p = Some (Dir st).

(** A jail whose source directory itself holds a directory [ftp] with a
    sub-directory [docs]. *)
Definition nested_src : MemFS :=
  <[ ["ftp"; "docs"] := Dir demo_dir_stat ]>
  (<[ ["ftp"] := Dir demo_dir_stat ]>
  (<[ [] := Dir demo_dir_stat ]> ∅)).

Definition nested_jail : AbstractFS :=
  {| _root := "/"; _home := "/ftp"; _cwd := "/ftp";
     home_fs := SubFS (mirror nested_src (<[ ["ftp"] := Dir demo_dir_stat ]> ∅) ["ftp"])
                      ["ftp"] |}.

(** ** The remaining members of [AbstractFS] *)

(** The properties [root], [home] and [cwd]. *)
Definition root (self : AbstractFS) : string := _root self.
Definition home (self : AbstractFS) : string := _home self.
Definition cwd (self : AbstractFS) : string := _cwd self.

(** [root.setter]: only [_root] is assigned; [_home], computed from the old
    root by the constructor, stays. *)
Definition set_root (self : AbstractFS) (path : string) : AbstractFS :=
  {| _root := path; _home := _home self; _cwd := _cwd self;
     home_fs := home_fs self |}.

(** The two members that assign to the state, as calls. *)
Inductive call : Set :=
| CallChdir (path : string)
| CallSetRoot (path : string).

Definition do_call (self : AbstractFS) (c : call) : result AbstractFS :=
  match c with
  | CallChdir path => chdir self path
  | CallSetRoot path => Ok (set_root self path)
  end.

(** A run of calls; the first exception ends the run. *)
Fixpoint run_calls (self : AbstractFS) (calls : list call) : result AbstractFS :=
  match calls with
  | [] => Ok self
  | c :: more => let* self' := do_call self c in run_calls self' more
  end.

(** The outcome of [AbstractFS.__getattr__]: an attribute of [home_fs], or
    [FilesystemError]. *)
Inductive getattr_result (A : Type) : Type :=
| Attribute (a : A)
| RaiseFilesystemError.
Arguments Attribute {A} a.
Arguments RaiseFilesystemError {A}.

(** [AbstractFS.__getattr__].  [command_alias] is the table of
    [conpot.protocols.ftp.ftp_utils], taken as a parameter; [attrs name] is
    [getattr(self.home_fs, name)] when [hasattr(self.home_fs, name)]. *)
Definition __getattr__ {A : Type} (command_alias : gmap string string)
    (attrs : string -> option A) (item : string) : getattr_result A :=
  let item :=
    match command_alias !! item with
    | Some target => target
    | None => item
    end in
  match attrs item with
  | Some a => Attribute a
  | None => RaiseFilesystemError
  end.

(** ** Runs of a [FileWriter] *)

Inductive writer_call : Set :=
| CallWrite (data : list Byte.byte)
| CallFlush.

(** The calls in turn on an open writer; the counts [write_chunk] returned. *)
Fixpoint writer_run (self : FileWriter.t) (disk : gmap string (list Byte.byte))
    (calls : list writer_call)
  : result (FileWriter.t * gmap string (list Byte.byte) * list Z) :=
  match calls with
  | [] => Ok (self, disk, [])
  | CallWrite data :: more =>
      let* (self1, n) := FileWriter.write_chunk self data in
      let* (self2, disk2, ns) := writer_run self1 disk more in
      Ok (self2, disk2, n :: ns)
  | CallFlush :: more =>
      let* (self1, disk1) := FileWriter._flush self disk in
      writer_run self1 disk1 more
  end.

(** The chunks a run writes, in order. *)
Fixpoint written (calls : list writer_call) : list (list Byte.byte) :=
  match calls with
  | [] => []
  | CallWrite data :: more => data :: written more
  | CallFlush :: more => written more
  end.

(** Open, run the calls, release. *)
Definition session (file_name : string) (calls : list writer_call)
    (disk : gmap string (list Byte.byte))
  : result (list Z * gmap string (list Byte.byte)) :=
  let* (w, disk1) := FileWriter.__init__ file_name disk in
  let* (w', disk2, ns) := writer_run w disk1 calls in
  let '(_, disk3) := FileWriter.__del__ w' disk2 in
  Ok (ns, disk3).

(** The jail of a second protocol, [tftp], built on the store that already
    holds the [ftp] jail. *)
Definition tftp_store : MemFS :=
  mirror nested_src (<[ ["tftp"] := Dir demo_dir_stat ]> demo_store) ["tftp"].

Definition tftp_jail : AbstractFS :=
  {| _root := "/"; _home := "/tftp"; _cwd := "/tftp";
     home_fs := SubFS tftp_store ["tftp"] |}.

(** The loop body of [format_list] from the age test on (source lines 223
    to 236), with [mt] standing for the value of the subscript
    [st[['st_mtime']]] and [file] for [basedir + basename]. *)
Definition entry_tail (self : AbstractFS) (now mt : Z) (st : stat_dict)
    (basename file : string) : result (option string) :=
  let permission := filemode (st_mode st) in
  let nlinks := st_nlink st in
  let size := st_size st in
  let uname := "owner" in
  let gname := "group" in
  let mtime := gmtime (st_mtime st) in
  let fmtstr := if Z.gtb (now - mt) SIX_MONTHS then "%d  %Y" else "%d %H:%M" in
  let* mtimestr := format_mtime fmtstr mtime in
  if Z.eqb (Z.land (st_mode st) 61440) S_IFLNK then
    let* basename' := symlink_name self basename file in
    let line := format_line permission nlinks uname gname size mtimestr basename' in
    Ok (Some line)
  else Ok None.

Lemma demo_jail_init :
  __init__ ∅ demo_dir_stat "ftp" demo_src = Ok (demo_jail, demo_store).
Proof.
  assert (Hm : makedir ∅ demo_dir_stat "/ftp"
               = Ok (<[ ["ftp"] := Dir demo_dir_stat ]> ∅, ["ftp"])) by reflexivity.
  unfold __init__, _add_protocol. change ("/" +:+ "ftp") with "/ftp".
  rewrite Hm. reflexivity.
Qed.

(** * Strings *)

Lemma append_nil_r (s : string) : s +:+ "" = s.
Proof. induction s as [|a s IH]; simpl; congruence. Qed.

Lemma append_assoc (a b c : string) : (a +:+ b) +:+ c = a +:+ (b +:+ c).
Proof. induction a as [|x a IH]; simpl; congruence. Qed.

(** * [chdir] *)

Lemma truthy_nonempty (s : string) : s <> "" -> truthy s = true.
Proof. destruct s; [congruence | reflexivity]. Qed.

Lemma chdir_empty (self : AbstractFS) : chdir self "" = Raise AssertionError.
Proof. reflexivity. Qed.

Lemma chdir_nonempty (self : AbstractFS) (path : string) :
  path <> "" ->
  chdir self path =
    match fs_isdir (home_fs self) (_cwd self +:+ path) with
    | Ok true => Ok (set_cwd self (_cwd self +:+ path))
    | Ok false => Ok self
    | Raise e => Raise e
    end.
Proof.
  intros Hne. unfold chdir. rewrite (truthy_nonempty _ Hne). simpl.
  destruct (fs_isdir (home_fs self) (_cwd self +:+ path)) as [[|]|e]; reflexivity.
Qed.

(** Every successful [chdir] extends the text of [_cwd] and keeps [_home]. *)
Lemma chdir_extends (self self' : AbstractFS) (path : string) :
  chdir self path = Ok self' ->
  _home self' = _home self /\ exists suffix, _cwd self' = _cwd self +:+ suffix.
Proof.
  destruct path as [|c path'].
  - discriminate.
  - rewrite chdir_nonempty by discriminate.
    destruct (fs_isdir _ _) as [[|]|e]; intros H; inversion H; subst; simpl.
    + split; [reflexivity | eauto].
    + split; [reflexivity | exists ""]. symmetry. apply append_nil_r.
Qed.

(** After any run of [chdir] calls that started at home, [_cwd] still begins
    with the text of [_home]: the only containment the code keeps. *)
Lemma chdir_seq_keeps_home_text (paths : list string) :
  forall self self' : AbstractFS,
    _cwd self = _home self ->
    chdir_seq self paths = Ok self' ->
    exists suffix, _cwd self' = _home self' +:+ suffix.
Proof.
  assert (Hgen : forall self self', chdir_seq self paths = Ok self' ->
            _home self' = _home self /\
            exists suffix, _cwd self' = _cwd self +:+ suffix).
  { induction paths as [|p ps IH]; simpl; intros self self' H.
    - inversion H; subst. split; [reflexivity | exists ""].
      symmetry. apply append_nil_r.
    - destruct (chdir self p) as [self1|e] eqn:E; simpl in H; [|discriminate].
      apply chdir_extends in E as [Hh [s1 Hc]].
      apply IH in H as [Hh' [s2 Hc']].
      split; [congruence|]. exists (s1 +:+ s2).
      rewrite Hc', Hc. apply append_assoc. }
  intros self self' Hstart H. apply Hgen in H as [Hh [s Hc]].
  exists s. congruence.
Qed.

(** C1 (code defect): on the fresh jail of protocol [ftp], [chdir("/..")] is
    accepted, [getcwd] then answers ["/ftp/.."], and that path resolves to
    the root of the store, which is not at or below the home ["/ftp"]. *)
Theorem chdir_dotdot_leaves_home :
  __init__ ∅ demo_dir_stat "ftp" demo_src = Ok (demo_jail, demo_store) /\
  _cwd demo_jail = _home demo_jail /\
  exists jail' : AbstractFS,
    chdir_seq demo_jail ["/.."] = Ok jail' /\
    getcwd jail' = "/ftp/.." /\
    _home jail' = "/ftp" /\
    normpath (getcwd jail') = Some [] /\
    at_or_below (_home jail') (getcwd jail') = false.
Proof.
  split; [exact demo_jail_init|]. split; [reflexivity|].
  eexists. split; [vm_compute; reflexivity|].
  repeat split; reflexivity.
Qed.

(** C2 (code defect): on the fresh [ftp] jail the target of [chdir("/..")]
    lies above home, yet the call is not rejected and leaves the
    uncanonical ["/ftp/.."] as working directory; and the target of
    [chdir("/nope")] is no directory of the jail, yet the call raises
    nothing and returns normally. *)
Lemma chdir_neither_rejects_nor_canonicalises :
  at_or_below (_home demo_jail) (_cwd demo_jail +:+ "/..") = false /\
  (exists self', chdir demo_jail "/.." = Ok self' /\ getcwd self' = "/ftp/..") /\
  fs_isdir (home_fs demo_jail) (_cwd demo_jail +:+ "/nope") = Ok false /\
  chdir demo_jail "/nope" = Ok demo_jail.
Proof.
  split; [reflexivity|]. split.
  - eexists. split; [vm_compute; reflexivity | reflexivity].
  - split; vm_compute; reflexivity.
Qed.

(** The query is made with the home prefix inside the jail's own view: on
    the fresh [ftp] jail [docs] is a directory of the jail, yet
    [chdir("/docs")] leaves the working directory where it was. *)
Lemma chdir_existing_directory_ignored :
  fs_isdir (home_fs demo_jail) "/docs" = Ok true /\
  chdir demo_jail "/docs" = Ok demo_jail.
Proof. split; vm_compute; reflexivity. Qed.

(** C10 (as amended): when the store reports that the target [cwd + path]
    is not a directory, [chdir] with a non-empty path returns normally and
    the jail, its working directory included, is unchanged; with the empty
    path it raises [AssertionError]. *)
Theorem chdir_missing_directory_is_silent (self : AbstractFS) (path : string) :
  fs_isdir (home_fs self) (_cwd self +:+ path) = Ok false ->
  (path <> "" ->
   chdir self path = Ok self /\
   forall self', chdir self path = Ok self' -> getcwd self' = getcwd self) /\
  (path = "" -> chdir self path = Raise AssertionError).
Proof.
  intros Hd. split.
  - intros Hne. rewrite (chdir_nonempty _ _ Hne), Hd.
    split; [reflexivity|]. intros self' H. inversion H. reflexivity.
  - intros ->. reflexivity.
Qed.

Lemma chdir_missing_directory_is_silent_witness :
  chdir demo_jail "/nope" = Ok demo_jail /\
  (forall self', chdir demo_jail "/nope" = Ok self' -> getcwd self' = getcwd demo_jail).
Proof.
  destruct (chdir_missing_directory_is_silent demo_jail "/nope") as [H _].
  - vm_compute. reflexivity.
  - apply H. discriminate.
Defined.

(** C10 (as stated) fails for the empty path: its target, the working
    directory ["/ftp"] itself, is no directory of the jail, and the call
    raises [AssertionError]. *)
Lemma chdir_empty_path_raises :
  fs_isdir (home_fs demo_jail) (_cwd demo_jail +:+ "") = Ok false /\
  chdir demo_jail "" = Raise AssertionError.
Proof. split; vm_compute; reflexivity. Qed.

(** * [stat], [readlink] and [format_list] *)

Lemma stat_nonempty (self : AbstractFS) (path : string) :
  path <> "" -> stat self path = fs_getinfo_stat (home_fs self) path.
Proof. intros Hne. unfold stat. rewrite (truthy_nonempty _ Hne). reflexivity. Qed.

Lemma readlink_nonempty (self : AbstractFS) (path : string) :
  path <> "" -> readlink self path = fs_getinfo_link (home_fs self) ".".
Proof. intros Hne. unfold readlink. rewrite (truthy_nonempty _ Hne). reflexivity. Qed.

(** No iteration of the loop gets past the subscript [st[['st_mtime']]]:
    either [stat] raises, or the subscript raises [TypeError]. *)
Lemma format_entry_raises (self : AbstractFS) (now : Z) (basedir basename : string) :
  match stat self (basedir +:+ basename) with
  | Ok _ => format_entry self now basedir basename = Raise TypeError
  | Raise e => format_entry self now basedir basename = Raise e
  end.
Proof.
  unfold format_entry.
  destruct (stat self (basedir +:+ basename)) as [st|e]; reflexivity.
Qed.

Lemma format_entry_not_ok (self : AbstractFS) (now : Z) (basedir basename : string) :
  exists e, format_entry self now basedir basename = Raise e.
Proof.
  pose proof (format_entry_raises self now basedir basename) as H.
  destruct (stat self (basedir +:+ basename)); eauto.
Qed.

(** C4 (as amended): [format_list] never yields a line, whatever the
    listing; when [stat] succeeds on the first entry of a non-empty listing,
    the first [next()] raises [TypeError]; when [stat] raises there, the
    first [next()] raises that exception. *)
Theorem format_list_yields_nothing (self : AbstractFS) (now : Z)
    (basedir : string) (listing : list string) :
  fst (format_list self now basedir listing) = [] /\
  (forall line rest, format_list_next self now basedir listing <> Yield line rest) /\
  (forall basename rest st,
     listing = basename :: rest ->
     stat self (basedir +:+ basename) = Ok st ->
     format_list_next self now basedir listing = GenRaise TypeError /\
     format_list self now basedir listing = ([], Some TypeError)) /\
  (forall basename rest e,
     listing = basename :: rest ->
     stat self (basedir +:+ basename) = Raise e ->
     format_list_next self now basedir listing = GenRaise e).
Proof.
  split; [|split; [|split]].
  - destruct listing as [|b rest]; [reflexivity|]. simpl.
    destruct (format_entry_not_ok self now basedir b) as [e ->]. reflexivity.
  - intros line rest'. destruct listing as [|b rest]; [discriminate|]. simpl.
    destruct (format_entry_not_ok self now basedir b) as [e ->]. discriminate.
  - intros b rest st -> Hst. simpl.
    pose proof (format_entry_raises self now basedir b) as H.
    rewrite Hst in H. rewrite H. split; reflexivity.
  - intros b rest e -> Hst. simpl.
    pose proof (format_entry_raises self now basedir b) as H.
    rewrite Hst in H. rewrite H. reflexivity.
Qed.

Lemma format_list_yields_nothing_witness :
  format_list_next demo_jail 1700000000 "/" ["music.mp3"; "docs"] = GenRaise TypeError /\
  format_list demo_jail 1700000000 "/" ["music.mp3"; "docs"] = ([], Some TypeError).
Proof.
  destruct (format_list_yields_nothing demo_jail 1700000000 "/" ["music.mp3"; "docs"])
    as [_ [_ [H _]]].
  apply (H "music.mp3" ["docs"] demo_file_stat); reflexivity.
Defined.

(** C4 (as stated) fails for a listing whose first entry is not in the
    jail: the first [next()] raises the store's [ResourceNotFound], not
    [TypeError]. *)
Lemma format_list_missing_entry_not_TypeError :
  format_list_next demo_jail 1700000000 "/" ["missing.txt"]
    = GenRaise (FSError ResourceNotFound) /\
  format_list_next demo_jail 1700000000 "/" ["missing.txt"] <> GenRaise TypeError.
Proof. split; [vm_compute; reflexivity | vm_compute; discriminate]. Qed.


(** C3 (code defect): on the fixture of the listing (the fresh [ftp] jail,
    whose [music.mp3] has mode 0100644, one link and 7045120 bytes) [stat]
    succeeds, the first [next()] raises [TypeError] at the subscript
    [st[['st_mtime']]] and the generator yields no line, at whatever time the
    listing is made; and the rest of the loop body, whatever value the
    subscript might have had, ends without a [yield] for this regular file,
    because the [yield] is inside the symbolic-link branch. *)
Theorem format_list_fixture_raises (now : Z) :
  stat demo_jail ("/" +:+ "music.mp3") = Ok demo_file_stat /\
  format_list_next demo_jail now "/" ["music.mp3"] = GenRaise TypeError /\
  format_list demo_jail now "/" ["music.mp3"] = ([], Some TypeError) /\
  (forall mt, entry_tail demo_jail now mt demo_file_stat "music.mp3"
                ("/" +:+ "music.mp3") = Ok None).
Proof.
  assert (Hst : stat demo_jail ("/" +:+ "music.mp3") = Ok demo_file_stat)
    by (vm_compute; reflexivity).
  split; [exact Hst|].
  pose proof (format_entry_raises demo_jail now "/" "music.mp3") as H.
  rewrite Hst in H. simpl. rewrite H.
  split; [reflexivity|]. split; [reflexivity|].
  intros mt. unfold entry_tail.
  change (gmtime (st_mtime demo_file_stat))
    with {| tm_year := 2022; tm_mon := 9; tm_mday := 2;
            tm_hour := 3; tm_min := 47; tm_sec := 0 |}.
  destruct (now - mt >? SIX_MONTHS); reflexivity.
Qed.

(** C5 (as stated) fails on the regular file [music.mp3] of the fresh [ftp]
    jail: the entry is no symbolic link and [readlink] returns normally. *)
Lemma readlink_regular_file_no_error :
  fs_getinfo_link (home_fs demo_jail) "/music.mp3" = Ok None /\
  S_IFMT (st_mode demo_file_stat) <> S_IFLNK /\
  readlink demo_jail "/music.mp3" = Ok None.
Proof.
  split; [vm_compute; reflexivity|].
  split; [vm_compute; discriminate | vm_compute; reflexivity].
Qed.

(** The query of [readlink] does not depend on its argument: on the fresh
    [ftp] jail the link [link -> music.mp3] reads as having no target. *)
Lemma readlink_ignores_path :
  fs_getinfo_link (home_fs demo_jail) "/link" = Ok (Some "music.mp3") /\
  readlink demo_jail "/link" = Ok None.
Proof. split; vm_compute; reflexivity. Qed.




(** * [__init__] *)

Lemma is_prefix_app (dst q : list string) : is_prefix dst (dst ++ q)%list = true.
Proof.
  induction dst as [|x dst IH]; simpl; [reflexivity|].
  rewrite String.eqb_refl. exact IH.
Qed.

Lemma strictly_below_app (dst q : list string) :
  q <> [] -> strictly_below dst (dst ++ q)%list = true.
Proof.
  intros Hq. unfold strictly_below. rewrite is_prefix_app. simpl.
  apply negb_true_iff, Nat.eqb_neq. rewrite length_app.
  destruct q; [congruence | simpl; lia].
Qed.

Lemma strictly_below_self (dst : list string) : strictly_below dst dst = false.
Proof.
  unfold strictly_below. rewrite Nat.eqb_refl. simpl. apply andb_false_r.
Qed.

(** Below the destination, the mirrored store reads as the source tree. *)
Lemma mirror_lookup_below (src m : MemFS) (dst q : list string) :
  q <> [] -> mirror src m dst !! (dst ++ q)%list = src !! q.
Proof.
  intros Hq. unfold mirror. rewrite lookup_union.
  rewrite (lookup_kmap (app dst)), lookup_delete_ne by congruence.
  destruct (src !! q) as [n|] eqn:E; simpl.
  - destruct (filter _ m !! _); reflexivity.
  - rewrite (map_lookup_filter_None_2 _ m); [reflexivity|].
    right. intros x _. simpl. rewrite strictly_below_app by exact Hq. discriminate.
Qed.

(** Elsewhere, the destination itself included, the store is untouched. *)
Lemma mirror_lookup_elsewhere (src m : MemFS) (dst k : list string) :
  strictly_below dst k = false -> mirror src m dst !! k = m !! k.
Proof.
  intros Hk. unfold mirror. rewrite lookup_union_r.
  - apply option_eq. intros x. rewrite map_lookup_filter_Some. simpl. tauto.
  - apply (lookup_kmap_None (app dst)). intros i ->.
    destruct i as [|c i].
    + apply lookup_delete_eq.
    + rewrite strictly_below_app in Hk by discriminate. discriminate.
Qed.

Lemma makedir_fresh (m : MemFS) (st : stat_dict) (path : string) (p : list string) :
  normpath path = Some p -> p <> [] -> m !! p = None -> parent_is_dir m p ->
  makedir m st path = Ok (<[p := Dir st]> m, p).
Proof.
  intros Hn Hp Hfree Hparent. unfold makedir, delegate_path. rewrite Hn. simpl.
  destruct p as [|c p']; [congruence|]. rewrite Hfree.
  unfold parent_is_dir in Hparent.
  destruct (removelast (c :: p')) as [|d parent]; [reflexivity|].
  destruct Hparent as [Hnil | [st' Hd]]; [discriminate|].
  rewrite Hd. reflexivity.
Qed.

Lemma makedir_exists (m : MemFS) (st : stat_dict) (path : string) (p : list string) :
  normpath path = Some p -> is_Some (m !! p) ->
  makedir m st path = Raise (FSError DirectoryExists).
Proof.
  intros Hn [n Hn']. unfold makedir, delegate_path. rewrite Hn. simpl.
  destruct p as [|c p']; [reflexivity|]. rewrite Hn'. reflexivity.
Qed.

(** C7: creating the jail of [protocol_name] fails with [DirectoryExists]
    when the entry ["/" + protocol_name] is already in the root store;
    otherwise it succeeds, home and working directory are both
    ["/" + protocol_name], the jail's store is the view below the new
    directory, every entry of the source tree (files with their bytes,
    directories, links with their targets) is found at the same relative path
    below it, and the rest of the root store is as before. *)
Theorem init_creates_and_mirrors (fs_root : MemFS) (dir_st : stat_dict)
    (protocol_name : string) (src : MemFS) (p : list string) :
  normpath ("/" +:+ protocol_name) = Some p ->
  match fs_root !! p with
  | Some _ =>
      __init__ fs_root dir_st protocol_name src = Raise (FSError DirectoryExists)
  | None =>
      p <> [] -> parent_is_dir fs_root p ->
      exists jail fs_root',
        __init__ fs_root dir_st protocol_name src = Ok (jail, fs_root') /\
        _home jail = "/" +:+ protocol_name /\
        _cwd jail = _home jail /\
        home_fs jail = SubFS fs_root' p /\
        fs_root' !! p = Some (Dir dir_st) /\
        (forall q, q <> [] -> fs_root' !! (p ++ q)%list = src !! q) /\
        (forall q st data, q <> [] -> src !! q = Some (File st data) ->
           fs_root' !! (p ++ q)%list = Some (File st data)) /\
        (forall k, strictly_below p k = false -> k <> p ->
           fs_root' !! k = fs_root !! k)
  end.
Proof.
  intros Hn. destruct (fs_root !! p) as [n|] eqn:E.
  - unfold __init__, _add_protocol.
    rewrite (makedir_exists _ _ _ p Hn) by (rewrite E; eauto). reflexivity.
  - intros Hp Hparent. unfold __init__, _add_protocol.
    rewrite (makedir_fresh _ _ _ p Hn Hp E Hparent). simpl.
    eexists _, _. split; [reflexivity|]. simpl.
    split; [reflexivity|]. split; [reflexivity|]. split; [reflexivity|].
    split; [|split; [|split]].
    + rewrite mirror_lookup_elsewhere by apply strictly_below_self.
      apply lookup_insert_eq.
    + intros q Hq. apply mirror_lookup_below, Hq.
    + intros q st data Hq Hsrc. rewrite mirror_lookup_below by exact Hq. exact Hsrc.
    + intros k Hk Hne. rewrite mirror_lookup_elsewhere by exact Hk.
      apply lookup_insert_ne. congruence.
Qed.

Lemma init_creates_and_mirrors_witness :
  (exists jail fs_root',
     __init__ ∅ demo_dir_stat "ftp" demo_src = Ok (jail, fs_root') /\
     _home jail = "/ftp" /\
     _cwd jail = _home jail /\
     home_fs jail = SubFS fs_root' ["ftp"] /\
     fs_root' !! ["ftp"] = Some (Dir demo_dir_stat) /\
     (forall q, q <> [] -> fs_root' !! (["ftp"] ++ q)%list = demo_src !! q) /\
     (forall q st data, q <> [] -> demo_src !! q = Some (File st data) ->
        fs_root' !! (["ftp"] ++ q)%list = Some (File st data)) /\
     (forall k, strictly_below ["ftp"] k = false -> k <> ["ftp"] ->
        fs_root' !! k = (∅ : MemFS) !! k)) /\
  __init__ demo_store demo_dir_stat "ftp" demo_src = Raise (FSError DirectoryExists).
Proof.
  split.
  - refine (init_creates_and_mirrors ∅ demo_dir_stat "ftp" demo_src ["ftp"] eq_refl _ _).
    + discriminate.
    + left. reflexivity.
  - exact (init_creates_and_mirrors demo_store demo_dir_stat "ftp" demo_src ["ftp"] eq_refl).
Defined.

(** * [FileWriter] *)

Lemma write_chunks_pending (chunks : list (list Byte.byte)) :
  forall (nm fnm : string) (pending : list Byte.byte),
    FileWriter.write_chunks
      {| FileWriter.name := nm;
         FileWriter._f := {| FileWriter.f_name := fnm;
                             FileWriter.f_pending := pending;
                             FileWriter.closed := false |} |} chunks
    = Ok ({| FileWriter.name := nm;
             FileWriter._f := {| FileWriter.f_name := fnm;
                                 FileWriter.f_pending := (pending ++ concat chunks)%list;
                                 FileWriter.closed := false |} |},
          map (fun data => Z.of_nat (length data)) chunks).
Proof.
  induction chunks as [|data more IH]; intros nm fnm pending; simpl.
  - rewrite app_nil_r. reflexivity.
  - unfold FileWriter.write_chunk, FileWriter.file_write. simpl.
    rewrite IH. simpl. rewrite <- app_assoc. reflexivity.
Qed.

(** C8: opening a writer on a name the store already holds raises
    [FileExistsError] (nothing is written); on a fresh name the writer opens,
    every [write_chunk] returns the length of its chunk, and once the writer
    is released the store holds under that name exactly the chunks written,
    in order, while every other file of the store is as before. *)
Theorem upload_exclusive_and_exact (file_name : string)
    (chunks : list (list Byte.byte)) (disk : gmap string (list Byte.byte)) :
  match disk !! file_name with
  | Some _ =>
      FileWriter.__init__ file_name disk = Raise FileExistsError /\
      FileWriter.upload file_name chunks disk = Raise FileExistsError
  | None =>
      exists w disk1 w' w'' disk2,
        FileWriter.__init__ file_name disk = Ok (w, disk1) /\
        disk1 !! file_name = Some [] /\
        FileWriter.write_chunks w chunks
          = Ok (w', map (fun data => Z.of_nat (length data)) chunks) /\
        FileWriter.__del__ w' disk1 = (w'', disk2) /\
        FileWriter.closed (FileWriter._f w'') = true /\
        disk2 !! file_name = Some (concat chunks) /\
        (forall other, other <> file_name -> disk2 !! other = disk !! other) /\
        FileWriter.upload file_name chunks disk
          = Ok (map (fun data => Z.of_nat (length data)) chunks, disk2)
  end.
Proof.
  destruct (disk !! file_name) as [old|] eqn:E.
  - unfold FileWriter.upload, FileWriter.__init__, FileWriter._open_file,
      FileWriter.open_xb. rewrite E. split; reflexivity.
  - unfold FileWriter.upload, FileWriter.__init__, FileWriter._open_file,
      FileWriter.open_xb. rewrite E. simpl.
    eexists _, _, _, _, _. split; [reflexivity|].
    split; [apply lookup_insert_eq|].
    split; [apply write_chunks_pending|].
    rewrite write_chunks_pending. simpl.
    split; [reflexivity|]. split; [reflexivity|].
    split; [|split; [|reflexivity]].
    + rewrite lookup_alter_eq, lookup_insert_eq. reflexivity.
    + intros other Hne. assert (Hne' : file_name <> other) by congruence.
      rewrite lookup_alter_ne by exact Hne'. apply lookup_insert_ne, Hne'.
Qed.

Lemma upload_exclusive_and_exact_witness :
  (exists disk2,
     FileWriter.upload "2022-09-02 03:47:00 - music-mp3"
       [[Byte.x49; Byte.x44]; []; [Byte.x33]] ∅ = Ok ([2; 0; 1], disk2) /\
     disk2 !! "2022-09-02 03:47:00 - music-mp3" = Some demo_bytes /\
     (forall other, other <> "2022-09-02 03:47:00 - music-mp3" ->
        disk2 !! other = None)) /\
  FileWriter.upload "2022-09-02 03:47:00 - music-mp3" [[Byte.x00]]
    {[ "2022-09-02 03:47:00 - music-mp3" := demo_bytes ]}
  = Raise FileExistsError.
Proof.
  split.
  - destruct (upload_exclusive_and_exact "2022-09-02 03:47:00 - music-mp3"
                [[Byte.x49; Byte.x44]; []; [Byte.x33]] ∅)
      as (w & d1 & w' & w'' & d2 & _ & _ & _ & _ & _ & Hname & Hother & Hup).
    exists d2. split; [exact Hup|]. split; [exact Hname|].
    intros other Hne. rewrite (Hother other Hne). apply lookup_empty.
  - destruct (upload_exclusive_and_exact "2022-09-02 03:47:00 - music-mp3"
                [[Byte.x00]] {[ "2022-09-02 03:47:00 - music-mp3" := demo_bytes ]})
      as [_ H].
    exact H.
Defined.

(** * [sanitize_file_name] *)

Lemma zpad_fields_2 :
  Forall (fun n => String.length (zpad 2 n) = 2%nat /\ parse_digits (zpad 2 n) 0 = n)
         (seqZ 0 100).
Proof. apply (bool_decide_unpack _). vm_compute. exact I. Qed.

Lemma zpad_fields_4 :
  Forall (fun n => String.length (zpad 4 n) = 4%nat /\ parse_digits (zpad 4 n) 0 = n)
         (seqZ 0 10000).
Proof. apply (bool_decide_unpack _). vm_compute. exact I. Qed.

Lemma zpad2_ok (n : Z) :
  0 <= n < 100 ->
  String.length (zpad 2 n) = 2%nat /\ parse_digits (zpad 2 n) 0 = n.
Proof.
  intros Hn. pose proof zpad_fields_2 as H. rewrite Forall_forall in H.
  apply H, elem_of_seqZ. lia.
Qed.

Lemma zpad4_ok (n : Z) :
  0 <= n < 10000 ->
  String.length (zpad 4 n) = 4%nat /\ parse_digits (zpad 4 n) 0 = n.
Proof.
  intros Hn. pose proof zpad_fields_4 as H. rewrite Forall_forall in H.
  apply H, elem_of_seqZ. lia.
Qed.

Lemma append_length (a b : string) :
  String.length (a +:+ b) = (String.length a + String.length b)%nat.
Proof. induction a as [|x a IH]; simpl; congruence. Qed.

(** Two concatenations whose heads have the same length agree part by part. *)
Lemma append_inj_length (a a' b b' : string) :
  String.length a = String.length a' ->
  a +:+ b = a' +:+ b' -> a = a' /\ b = b'.
Proof.
  revert a'. induction a as [|x a IH]; intros [|x' a'] Hlen H; simpl in *;
    try discriminate.
  - split; [reflexivity | exact H].
  - injection H as Hx Hrest. injection Hlen as Hlen.
    destruct (IH a' Hlen Hrest) as [-> ->]. subst. split; reflexivity.
Qed.

Lemma valid_datetime_bounds (dt : datetime) :
  valid_datetime dt = true ->
  1 <= year dt <= 9999 /\ 1 <= month dt <= 12 /\ 1 <= day dt <= 31 /\
  0 <= hour dt <= 23 /\ 0 <= minute dt <= 59 /\ 0 <= second dt <= 59 /\
  0 <= microsecond dt <= 999999.
Proof.
  unfold valid_datetime. rewrite !andb_true_iff, !Z.leb_le. tauto.
Qed.

Lemma strftime_timestamp (dt : datetime) :
  strftime "%Y-%m-%d %H:%M:%S" (timetuple dt) = timestamp_text dt.
Proof.
  unfold timestamp_text. cbn -[zpad String.append].
  rewrite (append_nil_r (zpad 2 (second dt))). reflexivity.
Qed.

Lemma timestamp_text_length (dt : datetime) :
  valid_datetime dt = true -> String.length (timestamp_text dt) = 19%nat.
Proof.
  intros Hv. apply valid_datetime_bounds in Hv as (Hy & Hm & Hd & HH & HM & HS & _).
  unfold timestamp_text. rewrite !append_length.
  rewrite (proj1 (zpad4_ok (year dt) ltac:(lia))).
  rewrite (proj1 (zpad2_ok (month dt) ltac:(lia))).
  rewrite (proj1 (zpad2_ok (day dt) ltac:(lia))).
  rewrite (proj1 (zpad2_ok (hour dt) ltac:(lia))).
  rewrite (proj1 (zpad2_ok (minute dt) ltac:(lia))).
  rewrite (proj1 (zpad2_ok (second dt) ltac:(lia))).
  reflexivity.
Qed.

Lemma zpad2_inj (a b : Z) :
  0 <= a < 100 -> 0 <= b < 100 -> zpad 2 a = zpad 2 b -> a = b.
Proof.
  intros Ha Hb H.
  rewrite <- (proj2 (zpad2_ok a Ha)), <- (proj2 (zpad2_ok b Hb)), H. reflexivity.
Qed.

Lemma zpad4_inj (a b : Z) :
  0 <= a < 10000 -> 0 <= b < 10000 -> zpad 4 a = zpad 4 b -> a = b.
Proof.
  intros Ha Hb H.
  rewrite <- (proj2 (zpad4_ok a Ha)), <- (proj2 (zpad4_ok b Hb)), H. reflexivity.
Qed.

(** Equal timestamp texts come from readings that agree down to the second. *)
Lemma timestamp_text_inj (dt1 dt2 : datetime) :
  valid_datetime dt1 = true -> valid_datetime dt2 = true ->
  timestamp_text dt1 = timestamp_text dt2 -> timetuple dt1 = timetuple dt2.
Proof.
  intros Hv1 Hv2 H.
  apply valid_datetime_bounds in Hv1 as (Hy1 & Hm1 & Hd1 & HH1 & HM1 & HS1 & _).
  apply valid_datetime_bounds in Hv2 as (Hy2 & Hm2 & Hd2 & HH2 & HM2 & HS2 & _).
  unfold timestamp_text in H.
  apply append_inj_length in H as [Hy H];
    [|rewrite (proj1 (zpad4_ok (year dt1) ltac:(lia))),
              (proj1 (zpad4_ok (year dt2) ltac:(lia))); reflexivity].
  apply (append_inj_length "-" "-") in H as [_ H]; [|reflexivity].
  apply append_inj_length in H as [Hm H];
    [|rewrite (proj1 (zpad2_ok (month dt1) ltac:(lia))),
              (proj1 (zpad2_ok (month dt2) ltac:(lia))); reflexivity].
  apply (append_inj_length "-" "-") in H as [_ H]; [|reflexivity].
  apply append_inj_length in H as [Hd H];
    [|rewrite (proj1 (zpad2_ok (day dt1) ltac:(lia))),
              (proj1 (zpad2_ok (day dt2) ltac:(lia))); reflexivity].
  apply (append_inj_length " " " ") in H as [_ H]; [|reflexivity].
  apply append_inj_length in H as [HH H];
    [|rewrite (proj1 (zpad2_ok (hour dt1) ltac:(lia))),
              (proj1 (zpad2_ok (hour dt2) ltac:(lia))); reflexivity].
  apply (append_inj_length ":" ":") in H as [_ H]; [|reflexivity].
  apply append_inj_length in H as [HM H];
    [|rewrite (proj1 (zpad2_ok (minute dt1) ltac:(lia))),
              (proj1 (zpad2_ok (minute dt2) ltac:(lia))); reflexivity].
  apply (append_inj_length ":" ":") in H as [_ HS]; [|reflexivity].
  apply zpad4_inj in Hy; [|lia..].
  apply zpad2_inj in Hm; [|lia..]. apply zpad2_inj in Hd; [|lia..].
  apply zpad2_inj in HH; [|lia..]. apply zpad2_inj in HM; [|lia..].
  apply zpad2_inj in HS; [|lia..].
  unfold timetuple. congruence.
Qed.

(** Readings that agree down to the second are less than a second apart. *)
Lemma same_second_close (dt1 dt2 : datetime) :
  valid_datetime dt1 = true -> valid_datetime dt2 = true ->
  timetuple dt1 = timetuple dt2 -> Z.abs (datetime_sub dt1 dt2) < 1000000.
Proof.
  intros Hv1 Hv2 H.
  apply valid_datetime_bounds in Hv1 as (_ & _ & _ & _ & _ & _ & Hu1).
  apply valid_datetime_bounds in Hv2 as (_ & _ & _ & _ & _ & _ & Hu2).
  unfold timetuple in H. injection H as Hy Hm Hd HH HM HS.
  unfold datetime_sub, toordinal. rewrite Hy, Hm, Hd, HH, HM, HS. lia.
Qed.

(** C9: the identifier is the clock reading as [YYYY-MM-DD HH:MM:SS] (19
    characters), then [" - "], then the slug of the name; it depends on the
    reading only down to the second, so two readings within the same second
    give the same identifier, and two readings at least one second apart give
    different identifiers for the same name. *)
Theorem sanitize_file_name_by_second (slugify : string -> string)
    (now1 now2 : datetime) (name : string) :
  valid_datetime now1 = true -> valid_datetime now2 = true ->
  sanitize_file_name slugify now1 name
    = timestamp_text now1 +:+ " - " +:+ slugify name /\
  String.length (timestamp_text now1) = 19%nat /\
  (timetuple now1 = timetuple now2 ->
   sanitize_file_name slugify now1 name = sanitize_file_name slugify now2 name) /\
  (1000000 <= Z.abs (datetime_sub now1 now2) ->
   sanitize_file_name slugify now1 name <> sanitize_file_name slugify now2 name).
Proof.
  intros Hv1 Hv2. unfold sanitize_file_name. rewrite !strftime_timestamp.
  split; [reflexivity|]. split; [apply timestamp_text_length, Hv1|]. split.
  - intros Ht. unfold sanitize_file_name.
    rewrite <- !strftime_timestamp, Ht. reflexivity.
  - intros Hfar Heq.
    apply append_inj_length in Heq as [Heq _];
      [|rewrite !timestamp_text_length by assumption; reflexivity].
    apply timestamp_text_inj in Heq; [|assumption..].
    pose proof (same_second_close now1 now2 Hv1 Hv2 Heq). lia.
Qed.

Lemma sanitize_file_name_by_second_witness :
  sanitize_file_name (fun s => s)
    {| year := 2022; month := 9; day := 2; hour := 3; minute := 47;
       second := 0; microsecond := 250000 |} "music"
  <> sanitize_file_name (fun s => s)
    {| year := 2022; month := 9; day := 2; hour := 3; minute := 47;
       second := 1; microsecond := 250000 |} "music".
Proof.
  apply (sanitize_file_name_by_second (fun s => s)
           {| year := 2022; month := 9; day := 2; hour := 3; minute := 47;
              second := 0; microsecond := 250000 |}
           {| year := 2022; month := 9; day := 2; hour := 3; minute := 47;
              second := 1; microsecond := 250000 |} "music").
  - reflexivity.
  - reflexivity.
  - vm_compute. discriminate.
Defined.

(** * Further properties of [AbstractFS] *)

Lemma append_length_le (a b : string) :
  (String.length a <= String.length (a +:+ b))%nat.
Proof. rewrite append_length. lia. Qed.

Lemma do_call_extends (self self' : AbstractFS) (c : call) :
  do_call self c = Ok self' ->
  home self' = home self /\ home_fs self' = home_fs self /\
  exists suffix, cwd self' = cwd self +:+ suffix.
Proof.
  destruct c as [path|path]; simpl; intros H.
  - destruct path as [|ch path']; [discriminate|].
    rewrite chdir_nonempty in H by discriminate.
    destruct (fs_isdir _ _) as [[|]|e]; inversion H; subst; simpl.
    + repeat split. eauto.
    + repeat split. exists "". symmetry. apply append_nil_r.
  - inversion H; subst. simpl. repeat split.
    exists "". symmetry. apply append_nil_r.
Qed.

(** X1: whatever calls to [chdir] and to the [root] setter are run, and
    whatever the store answers, a run that ends without exception leaves
    [home] and [home_fs] as they were and a working directory that is the old
    one with text added at its end: the working directory never gets
    shorter, and no call takes back what an earlier [chdir] appended. *)
Theorem calls_only_extend_cwd (calls : list call) (self self' : AbstractFS) :
  run_calls self calls = Ok self' ->
  home self' = home self /\
  home_fs self' = home_fs self /\
  (exists suffix, cwd self' = cwd self +:+ suffix) /\
  (String.length (cwd self) <= String.length (cwd self'))%nat.
Proof.
  revert self. induction calls as [|c more IH]; simpl; intros self H.
  - inversion H; subst. repeat split; [|lia].
    exists "". symmetry. apply append_nil_r.
  - destruct (do_call self c) as [self1|e] eqn:E; simpl in H; [|discriminate].
    apply do_call_extends in E as (Hh & Hf & s1 & Hc).
    apply IH in H as (Hh' & Hf' & [s2 Hc'] & _).
    assert (Hcwd : cwd self' = cwd self +:+ (s1 +:+ s2)).
    { rewrite Hc', Hc. apply append_assoc. }
    repeat split; [congruence | congruence | eauto |].
    rewrite Hcwd. apply append_length_le.
Qed.

Lemma calls_only_extend_cwd_witness :
  exists self',
    run_calls nested_jail [CallChdir "/docs"; CallSetRoot "/srv"; CallChdir "/nope"]
      = Ok self' /\
    root self' = "/srv" /\
    home self' = "/ftp" /\
    cwd self' = "/ftp/docs" /\
    (String.length (cwd nested_jail) <= String.length (cwd self'))%nat.
Proof.
  eexists. split; [vm_compute; reflexivity|].
  split; [reflexivity|]. split; [reflexivity|]. split; [reflexivity|].
  eapply (calls_only_extend_cwd
            [CallChdir "/docs"; CallSetRoot "/srv"; CallChdir "/nope"] nested_jail).
  vm_compute. reflexivity.
Defined.

(** X2: [readlink] does not look at its argument beyond its being non-empty:
    any two non-empty paths get the same outcome, target or exception. *)
Theorem readlink_same_for_all_paths (self : AbstractFS) (path1 path2 : string) :
  path1 <> "" -> path2 <> "" -> readlink self path1 = readlink self path2.
Proof.
  intros H1 H2. rewrite !readlink_nonempty by assumption. reflexivity.
Qed.

Lemma readlink_same_for_all_paths_witness :
  readlink demo_jail "/link" = readlink demo_jail "/music.mp3".
Proof. apply readlink_same_for_all_paths; discriminate. Defined.

(** What a successful constructor has done. *)
Lemma init_inversion (fs_root fs_root' : MemFS) (dir_st : stat_dict)
    (protocol_name : string) (src : MemFS) (jail : AbstractFS) :
  __init__ fs_root dir_st protocol_name src = Ok (jail, fs_root') ->
  exists p,
    normpath ("/" +:+ protocol_name) = Some p /\
    p <> [] /\
    fs_root !! p = None /\
    fs_root' = mirror src (<[p := Dir dir_st]> fs_root) p /\
    jail = {| _root := "/"; _home := "/" +:+ protocol_name;
              _cwd := "/" +:+ protocol_name; home_fs := SubFS fs_root' p |}.
Proof.
  unfold __init__, _add_protocol, makedir, delegate_path.
  destruct (normpath ("/" +:+ protocol_name)) as [p|]; simpl; [|discriminate].
  destruct p as [|c p']; [discriminate|].
  destruct (fs_root !! (c :: p')) as [n|] eqn:E; [discriminate|].
  intros H. exists (c :: p').
  assert (Hok : Ok ({| _root := "/"; _home := "/" +:+ protocol_name;
                       _cwd := "/" +:+ protocol_name;
                       home_fs := SubFS (mirror src (<[c :: p' := Dir dir_st]> fs_root)
                                           (c :: p')) (c :: p') |},
                    mirror src (<[c :: p' := Dir dir_st]> fs_root) (c :: p'))
                = Ok (jail, fs_root')).
  { destruct (removelast (c :: p')) as [|d parent]; [exact H|].
    destruct (fs_root !! (d :: parent)) as [[| |]|]; try discriminate. exact H. }
  inversion Hok; subst. repeat split; congruence.
Qed.

Lemma mirror_lookup_dst (src m : MemFS) (dst : list string) (st : stat_dict) :
  mirror src (<[dst := Dir st]> m) dst !! dst = Some (Dir st).
Proof.
  rewrite mirror_lookup_elsewhere by apply strictly_below_self.
  apply lookup_insert_eq.
Qed.

(** C5 (as amended): [readlink] has no failure of its own for an entry that
    is not a symbolic link.  In every jail the constructor builds, [readlink]
    on a non-empty path whose entry the store reports as no link returns
    normally, with no target; the empty path raises [AssertionError]. *)
Theorem readlink_no_error_on_non_link (fs_root fs_root' : MemFS)
    (dir_st : stat_dict) (protocol_name : string) (src : MemFS)
    (jail : AbstractFS) (path : string) :
  __init__ fs_root dir_st protocol_name src = Ok (jail, fs_root') ->
  readlink jail "" = Raise AssertionError /\
  (path <> "" ->
   fs_getinfo_link (home_fs jail) path = Ok None ->
   readlink jail path = Ok None).
Proof.
  intros Hinit. split; [reflexivity|]. intros Hne _.
  apply init_inversion in Hinit as (p & _ & _ & _ & -> & ->).
  rewrite readlink_nonempty by exact Hne. simpl.
  unfold delegate_path. change (normpath ".") with (Some (@nil string)). simpl.
  rewrite app_nil_r, mirror_lookup_dst. reflexivity.
Qed.

Lemma readlink_no_error_on_non_link_witness :
  readlink demo_jail "" = Raise AssertionError /\
  readlink demo_jail "/music.mp3" = Ok None.
Proof.
  destruct (readlink_no_error_on_non_link ∅ demo_store demo_dir_stat "ftp"
              demo_src demo_jail "/music.mp3" demo_jail_init) as [H0 H].
  split; [exact H0|]. apply H; [discriminate | vm_compute; reflexivity].
Defined.

(** X3: in every jail the constructor builds, [readlink] reports no target:
    its query goes to the jail's own root directory, so for each non-empty
    path, link or not, the answer is [None]. *)
Theorem readlink_in_new_jail_is_none (fs_root fs_root' : MemFS)
    (dir_st : stat_dict) (protocol_name : string) (src : MemFS)
    (jail : AbstractFS) (path : string) :
  __init__ fs_root dir_st protocol_name src = Ok (jail, fs_root') ->
  path <> "" ->
  readlink jail path = Ok None /\
  (forall basename, symlink_name jail basename path = Raise TypeError).
Proof.
  intros Hinit Hne.
  apply init_inversion in Hinit as (p & _ & _ & _ & -> & ->).
  assert (Hr : readlink
                 {| _root := "/"; _home := "/" +:+ protocol_name;
                    _cwd := "/" +:+ protocol_name;
                    home_fs := SubFS (mirror src (<[p := Dir dir_st]> fs_root) p) p |}
                 path = Ok None).
  { rewrite readlink_nonempty by exact Hne. simpl.
    unfold delegate_path. change (normpath ".") with (Some (@nil string)). simpl.
    rewrite app_nil_r, mirror_lookup_dst. reflexivity. }
  split; [exact Hr|]. intros basename. unfold symlink_name. rewrite Hr. reflexivity.
Qed.

Lemma readlink_in_new_jail_is_none_witness :
  readlink demo_jail "/link" = Ok None /\
  (forall basename, symlink_name demo_jail basename "/link" = Raise TypeError).
Proof.
  apply (readlink_in_new_jail_is_none ∅ demo_store demo_dir_stat "ftp" demo_src).
  - exact demo_jail_init.
  - discriminate.
Defined.

(** X4: in a jail the constructor has just built, [stat] on a non-empty path
    succeeds exactly on the jail's root and on the paths of the mirrored
    source tree: a path that climbs above the jail is
    [IllegalBackReference], a path that resolves to no entry of the source
    is [ResourceNotFound], and a path that resolves to the root or to an
    entry of the source gets a stat record. *)
Theorem stat_in_new_jail (fs_root fs_root' : MemFS) (dir_st : stat_dict)
    (protocol_name : string) (src : MemFS) (jail : AbstractFS) (path : string) :
  __init__ fs_root dir_st protocol_name src = Ok (jail, fs_root') ->
  path <> "" ->
  match normpath path with
  | None => stat jail path = Raise (FSError IllegalBackReference)
  | Some [] => exists st, stat jail path = Ok st
  | Some q =>
      match src !! q with
      | Some _ => exists st, stat jail path = Ok st
      | None => stat jail path = Raise (FSError ResourceNotFound)
      end
  end.
Proof.
  intros Hinit Hne.
  apply init_inversion in Hinit as (p & _ & _ & _ & -> & ->).
  rewrite stat_nonempty by exact Hne. simpl. unfold delegate_path.
  destruct (normpath path) as [[|c q]|]; simpl; [| |reflexivity].
  - rewrite app_nil_r, mirror_lookup_dst. eauto.
  - rewrite mirror_lookup_below by discriminate.
    destruct (src !! (c :: q)); [eauto | reflexivity].
Qed.

Lemma stat_in_new_jail_witness :
  (exists st, stat demo_jail "/docs/../music.mp3" = Ok st) /\
  stat demo_jail "/../music.mp3" = Raise (FSError IllegalBackReference) /\
  stat demo_jail "/nope" = Raise (FSError ResourceNotFound).
Proof.
  split; [|split].
  - exact (stat_in_new_jail ∅ demo_store demo_dir_stat "ftp" demo_src demo_jail
             "/docs/../music.mp3" demo_jail_init ltac:(discriminate)).
  - exact (stat_in_new_jail ∅ demo_store demo_dir_stat "ftp" demo_src demo_jail
             "/../music.mp3" demo_jail_init ltac:(discriminate)).
  - exact (stat_in_new_jail ∅ demo_store demo_dir_stat "ftp" demo_src demo_jail
             "/nope" demo_jail_init ltac:(discriminate)).
Defined.

(** X5: on the store a successful constructor leaves behind, a second jail
    for the same protocol name cannot be built: the constructor raises
    [DirectoryExists], whatever source tree it is given. *)
Theorem init_twice_fails (fs_root fs_root' : MemFS) (dir_st dir_st' : stat_dict)
    (protocol_name : string) (src src' : MemFS) (jail : AbstractFS) :
  __init__ fs_root dir_st protocol_name src = Ok (jail, fs_root') ->
  __init__ fs_root' dir_st' protocol_name src' = Raise (FSError DirectoryExists).
Proof.
  intros Hinit. apply init_inversion in Hinit as (p & Hn & _ & _ & -> & _).
  unfold __init__, _add_protocol.
  rewrite (makedir_exists _ _ _ p Hn); [reflexivity|].
  rewrite mirror_lookup_dst. eauto.
Qed.

Lemma init_twice_fails_witness :
  __init__ demo_store demo_dir_stat "ftp" nested_src = Raise (FSError DirectoryExists).
Proof.
  exact (init_twice_fails ∅ demo_store demo_dir_stat demo_dir_stat "ftp"
           demo_src nested_src demo_jail demo_jail_init).
Defined.

Lemma is_prefix_singleton_false (a b : string) (k : list string) :
  a <> b -> is_prefix [b] (a :: k) = false.
Proof.
  intros Hne. simpl. destruct (String.eqb b a) eqn:E; [|reflexivity].
  apply String.eqb_eq in E. congruence.
Qed.

(** X6: two jails on one root store do not disturb each other.  When the
    jails of two protocols whose names are single path components are built
    one after the other, every query ([isdir], stat, link) on the first
    jail's sub-tree has the same answer on the final store as before the
    second jail was built. *)
Theorem second_jail_leaves_first (fs0 fs1 fs2 : MemFS) (st1 st2 : stat_dict)
    (name1 name2 a b : string) (src1 src2 : MemFS) (jail1 jail2 : AbstractFS)
    (path : string) :
  normpath ("/" +:+ name1) = Some [a] ->
  normpath ("/" +:+ name2) = Some [b] ->
  __init__ fs0 st1 name1 src1 = Ok (jail1, fs1) ->
  __init__ fs1 st2 name2 src2 = Ok (jail2, fs2) ->
  a <> b /\
  fs_isdir (SubFS fs2 [a]) path = fs_isdir (home_fs jail1) path /\
  fs_getinfo_stat (SubFS fs2 [a]) path = fs_getinfo_stat (home_fs jail1) path /\
  fs_getinfo_link (SubFS fs2 [a]) path = fs_getinfo_link (home_fs jail1) path.
Proof.
  intros Hn1 Hn2 H1 H2.
  apply init_inversion in H1 as (p1 & Hp1 & _ & _ & Hfs1 & ->).
  apply init_inversion in H2 as (p2 & Hp2 & _ & Hfree & Hfs2 & _).
  assert (p1 = [a]) by congruence. assert (p2 = [b]) by congruence. subst p1 p2.
  assert (Hab : a <> b).
  { intros ->. rewrite Hfs1, mirror_lookup_dst in Hfree. discriminate. }
  assert (Hsame : forall k, fs2 !! (a :: k) = fs1 !! (a :: k)).
  { intros k. rewrite Hfs2.
    rewrite mirror_lookup_elsewhere.
    - apply lookup_insert_ne. congruence.
    - unfold strictly_below. rewrite is_prefix_singleton_false by exact Hab.
      reflexivity. }
  split; [exact Hab|]. simpl. unfold delegate_path.
  destruct (normpath path) as [q|]; simpl; [|repeat split; reflexivity].
  rewrite Hsame. repeat split; reflexivity.
Qed.

Lemma tftp_jail_init :
  __init__ demo_store demo_dir_stat "tftp" nested_src = Ok (tftp_jail, tftp_store).
Proof.
  assert (Hfree : demo_store !! ["tftp"] = None) by (vm_compute; reflexivity).
  unfold __init__, _add_protocol. change ("/" +:+ "tftp") with "/tftp".
  rewrite (makedir_fresh demo_store demo_dir_stat "/tftp" ["tftp"] eq_refl
             ltac:(discriminate) Hfree ltac:(left; reflexivity)).
  reflexivity.
Qed.

Lemma second_jail_leaves_first_witness :
  "ftp" <> "tftp" /\
  fs_isdir (SubFS tftp_store ["ftp"]) "/docs"
    = fs_isdir (home_fs demo_jail) "/docs" /\
  fs_getinfo_stat (SubFS tftp_store ["ftp"]) "/docs"
    = fs_getinfo_stat (home_fs demo_jail) "/docs" /\
  fs_getinfo_link (SubFS tftp_store ["ftp"]) "/docs"
    = fs_getinfo_link (home_fs demo_jail) "/docs".
Proof.
  exact (second_jail_leaves_first ∅ demo_store tftp_store demo_dir_stat
           demo_dir_stat "ftp" "tftp" "ftp" "tftp" demo_src nested_src demo_jail
           tftp_jail "/docs" eq_refl eq_refl demo_jail_init tftp_jail_init).
Defined.

(** X7: in a jail the constructor has just built for a single-component
    protocol name, [chdir] looks its target up with the home prefix inside
    the jail's own tree.  For a non-empty path whose target resolves to
    [name/q], the working directory changes exactly when the source tree
    holds a directory at [name/q]; otherwise the call returns normally and
    nothing changes, even if [q] itself is a directory of the jail. *)
Theorem chdir_in_new_jail (fs_root fs_root' : MemFS) (dir_st : stat_dict)
    (protocol_name a : string) (src : MemFS) (jail : AbstractFS)
    (path : string) (q : list string) :
  normpath ("/" +:+ protocol_name) = Some [a] ->
  __init__ fs_root dir_st protocol_name src = Ok (jail, fs_root') ->
  path <> "" ->
  normpath (cwd jail +:+ path) = Some (a :: q) ->
  chdir jail path =
    match src !! (a :: q) with
    | Some (Dir _) => Ok (set_cwd jail (cwd jail +:+ path))
    | _ => Ok jail
    end.
Proof.
  intros Hn Hinit Hne Hq.
  apply init_inversion in Hinit as (p & Hp & _ & _ & -> & ->).
  assert (p = [a]) by congruence. subst p.
  rewrite chdir_nonempty by exact Hne. unfold cwd in *. simpl in *.
  unfold delegate_path. rewrite Hq. simpl.
  change (a :: a :: q) with ([a] ++ a :: q)%list.
  rewrite mirror_lookup_below by discriminate.
  destruct (src !! (a :: q)) as [[| |]|]; reflexivity.
Qed.

Lemma chdir_in_new_jail_witness :
  fs_isdir (home_fs demo_jail) "/docs" = Ok true /\
  chdir demo_jail "/docs" = Ok demo_jail.
Proof.
  split; [vm_compute; reflexivity|].
  exact (chdir_in_new_jail ∅ demo_store demo_dir_stat "ftp" "ftp" demo_src
           demo_jail "/docs" ["docs"] eq_refl demo_jail_init
           ltac:(discriminate) eq_refl).
Defined.

(** * Further properties of [FileWriter] *)

Lemma alter_present (disk : gmap string (list Byte.byte)) (nm : string)
    (f : list Byte.byte -> list Byte.byte) (c : list Byte.byte) :
  disk !! nm = Some c -> alter f nm disk = <[nm := f c]> disk.
Proof.
  intros H. rewrite <- (insert_id disk nm c H) at 1. apply alter_insert_eq.
Qed.

(** An open writer keeps, between the file and its buffer, the bytes that
    were there plus the chunks written, wherever the flushes fall. *)
Lemma writer_run_open (calls : list writer_call) :
  forall (nm0 nm : string) (pending c : list Byte.byte)
         (disk : gmap string (list Byte.byte)),
    disk !! nm = Some c ->
    exists pending' c',
      writer_run
        {| FileWriter.name := nm0;
           FileWriter._f := {| FileWriter.f_name := nm;
                               FileWriter.f_pending := pending;
                               FileWriter.closed := false |} |} disk calls
      = Ok ({| FileWriter.name := nm0;
               FileWriter._f := {| FileWriter.f_name := nm;
                                   FileWriter.f_pending := pending';
                                   FileWriter.closed := false |} |},
            <[nm := c']> disk,
            map (fun data => Z.of_nat (length data)) (written calls)) /\
      (c' ++ pending' = c ++ pending ++ concat (written calls))%list.
Proof.
  induction calls as [|[data|] more IH]; intros nm0 nm pending c disk Hc; simpl.
  - exists pending, c. rewrite (insert_id disk nm c Hc), app_nil_r. auto.
  - unfold FileWriter.write_chunk, FileWriter.file_write. simpl.
    destruct (IH nm0 nm (pending ++ data)%list c disk Hc) as (p' & c' & -> & Heq).
    simpl. exists p', c'. split; [reflexivity|].
    rewrite Heq, <- !app_assoc. reflexivity.
  - unfold FileWriter._flush, FileWriter.file_flush. simpl.
    rewrite (alter_present disk nm _ c Hc).
    destruct (IH nm0 nm [] (c ++ pending)%list (<[nm := (c ++ pending)%list]> disk)
                (lookup_insert_eq _ _ _)) as (p' & c' & -> & Heq).
    exists p', c'. rewrite insert_insert_eq. split; [reflexivity|].
    rewrite Heq. simpl. rewrite <- app_assoc. reflexivity.
Qed.

(** X8: flushes do not show in the result.  On a fresh name, opening a
    writer, running any mix of [write_chunk] and [_flush] calls and releasing
    the writer stores under that name exactly the chunks written, in order,
    returns the length of each chunk, and changes no other file. *)
Theorem session_stores_written_chunks (file_name : string)
    (calls : list writer_call) (disk : gmap string (list Byte.byte)) :
  disk !! file_name = None ->
  session file_name calls disk
  = Ok (map (fun data => Z.of_nat (length data)) (written calls),
        <[file_name := concat (written calls)]> disk).
Proof.
  intros Hfree. unfold session, FileWriter.__init__, FileWriter._open_file,
    FileWriter.open_xb. rewrite Hfree. simpl.
  destruct (writer_run_open calls file_name file_name [] []
              (<[file_name := []]> disk) (lookup_insert_eq _ _ _))
    as (p' & c' & -> & Heq).
  simpl. unfold FileWriter.__del__, FileWriter.file_close. simpl.
  rewrite insert_insert_eq, alter_insert_eq, Heq. reflexivity.
Qed.

Lemma session_stores_written_chunks_witness :
  session "a.bin" [CallWrite [Byte.x49]; CallFlush; CallWrite [];
                   CallWrite [Byte.x44; Byte.x33]; CallFlush] ∅
  = Ok ([1; 0; 2], {[ "a.bin" := demo_bytes ]}).
Proof.
  rewrite (session_stores_written_chunks "a.bin" _ ∅) by reflexivity.
  reflexivity.
Defined.

Lemma upload_fresh (file_name : string) (chunks : list (list Byte.byte))
    (disk : gmap string (list Byte.byte)) :
  disk !! file_name = None ->
  FileWriter.upload file_name chunks disk
  = Ok (map (fun data => Z.of_nat (length data)) chunks,
        <[file_name := concat chunks]> disk).
Proof.
  intros Hfree. unfold FileWriter.upload, FileWriter.__init__,
    FileWriter._open_file, FileWriter.open_xb. rewrite Hfree. simpl.
  rewrite write_chunks_pending. simpl.
  unfold FileWriter.__del__, FileWriter.file_close. simpl.
  rewrite alter_insert_eq. reflexivity.
Qed.

Lemma upload_present (file_name : string) (chunks : list (list Byte.byte))
    (disk : gmap string (list Byte.byte)) :
  is_Some (disk !! file_name) ->
  FileWriter.upload file_name chunks disk = Raise FileExistsError.
Proof.
  intros [c Hc]. unfold FileWriter.upload, FileWriter.__init__,
    FileWriter._open_file, FileWriter.open_xb. rewrite Hc. reflexivity.
Qed.

(** X9: a name can be uploaded once.  After a successful upload, every later
    upload under the same name raises [FileExistsError], so the bytes stored
    first are never replaced. *)
Theorem upload_name_used_once (file_name : string)
    (chunks chunks' : list (list Byte.byte)) (counts : list Z)
    (disk disk' : gmap string (list Byte.byte)) :
  FileWriter.upload file_name chunks disk = Ok (counts, disk') ->
  disk' !! file_name = Some (concat chunks) /\
  FileWriter.upload file_name chunks' disk' = Raise FileExistsError.
Proof.
  intros H. destruct (disk !! file_name) as [c|] eqn:E.
  - rewrite upload_present in H by (rewrite E; eauto). discriminate.
  - rewrite (upload_fresh _ _ _ E) in H. inversion H; subst.
    rewrite lookup_insert_eq. split; [reflexivity|].
    apply upload_present. rewrite lookup_insert_eq. eauto.
Qed.

Lemma upload_name_used_once_witness :
  ({[ "a.bin" := demo_bytes ]} : gmap string (list Byte.byte)) !! "a.bin"
    = Some (concat [demo_bytes]) /\
  FileWriter.upload "a.bin" [[Byte.x00]] {[ "a.bin" := demo_bytes ]}
    = Raise FileExistsError.
Proof.
  apply (upload_name_used_once "a.bin" [demo_bytes] [[Byte.x00]] [3] ∅).
  reflexivity.
Defined.

(** X11: a released writer stays released.  After [__del__], [write_chunk]
    and [_flush] raise [ValueError], and a second [__del__] changes neither
    the writer nor the store. *)
Theorem released_writer_is_closed (self : FileWriter.t)
    (disk : gmap string (list Byte.byte)) (data : list Byte.byte) :
  FileWriter.closed (FileWriter._f (fst (FileWriter.__del__ self disk))) = true /\
  FileWriter.write_chunk (fst (FileWriter.__del__ self disk)) data
    = Raise ValueError /\
  FileWriter._flush (fst (FileWriter.__del__ self disk))
      (snd (FileWriter.__del__ self disk)) = Raise ValueError /\
  FileWriter.__del__ (fst (FileWriter.__del__ self disk))
      (snd (FileWriter.__del__ self disk))
    = FileWriter.__del__ self disk.
Proof.
  unfold FileWriter.__del__, FileWriter.file_close.
  destruct self as [nm [fnm pending [|]]]; simpl.
  - repeat split; reflexivity.
  - unfold FileWriter.write_chunk, FileWriter._flush, FileWriter.file_write,
      FileWriter.file_flush. simpl. repeat split; reflexivity.
Qed.

(** * Further properties of the listing timestamp and of the sanitizer *)

(** The calendar date of a day of the 32-bit epoch has a four-digit year and
    its month and day in range. *)
Lemma civil_from_days_bounds (days y m d : Z) :
  0 <= days < 24856 ->
  civil_from_days days = (y, m, d) ->
  1000 <= y <= 9999 /\ 1 <= m <= 12 /\ 1 <= d <= 31.
Proof.
  intros Hd H. unfold civil_from_days in H.
  set (z := days + 719468) in *.
  set (era := z / 146097) in *.
  set (doe := z - era * 146097) in *.
  set (yoe := (doe - doe / 1460 + doe / 36524 - doe / 146096) / 365) in *.
  set (doy := doe - (365 * yoe + yoe / 4 - yoe / 100)) in *.
  set (mp := (5 * doy + 2) / 153) in *.
  assert (Hera : 4 <= era <= 5) by (subst era z; Z.div_mod_to_equations; lia).
  assert (Hdoe : 0 <= doe <= 146096)
    by (subst doe era; Z.div_mod_to_equations; lia).
  assert (Hy : 0 <= yoe <= 399 /\ 0 <= doy <= 365).
  { subst doy yoe. clearbody doe. clear - Hdoe. Z.div_mod_to_equations. lia. }
  destruct Hy as [Hyoe Hdoy].
  assert (Hmp : 0 <= mp <= 11)
    by (subst mp; clearbody doy; Z.div_mod_to_equations; lia).
  assert (Hday : 1 <= doy - (153 * mp + 2) / 5 + 1 <= 31).
  { subst mp. clearbody doy. Z.div_mod_to_equations. lia. }
  inversion H; subst y m d. clear H.
  split; [|split].
  - destruct (_ <=? 2)%Z; lia.
  - destruct (mp <? 10)%Z eqn:E; [apply Z.ltb_lt in E | apply Z.ltb_ge in E]; lia.
  - exact Hday.
Qed.

Lemma months_map_entries :
  Forall (fun m => exists name, months_map m = Some name /\
                                String.length name = 3%nat) (seqZ 1 12).
Proof. repeat constructor; eexists; split; reflexivity. Qed.

(** X12: for every modification time from 1970 up to the end of the 32-bit
    epoch, the month lookup of the listing succeeds and both timestamp
    formats, the old-file one and the recent-file one, render to exactly 12
    characters, so the name column of a listing line starts at the same
    place under either format. *)
Theorem listing_timestamp_width (mtime : Z) :
  0 <= mtime < 2147483648 ->
  exists old recent,
    format_mtime "%d  %Y" (gmtime mtime) = Ok old /\
    format_mtime "%d %H:%M" (gmtime mtime) = Ok recent /\
    String.length old = 12%nat /\
    String.length recent = 12%nat.
Proof.
  intros Hm.
  assert (Hdays : 0 <= mtime / 86400 < 24856).
  { split; [apply Z.div_pos; lia | apply Z.div_lt_upper_bound; lia]. }
  assert (Hrest : 0 <= mtime mod 86400 < 86400) by (apply Z.mod_pos_bound; lia).
  unfold format_mtime, gmtime.
  destruct (civil_from_days (mtime / 86400)) as [[y m] d] eqn:Hciv. simpl.
  destruct (civil_from_days_bounds _ _ _ _ Hdays Hciv)
    as ((Hy1 & Hy2) & (Hm1 & Hm2) & (Hd1 & Hd2)).
  pose proof months_map_entries as Hmon. rewrite Forall_forall in Hmon.
  destruct (Hmon m) as (name & Hname & Hlen); [apply elem_of_seqZ; lia|].
  unfold months_map_getitem. rewrite Hname. simpl.
  assert (Hhour : 0 <= mtime mod 86400 / 3600 < 100).
  { split; [apply Z.div_pos; lia | apply Z.div_lt_upper_bound; lia]. }
  assert (Hmin : 0 <= mtime mod 86400 mod 3600 / 60 < 100).
  { pose proof (Z.mod_pos_bound (mtime mod 86400) 3600 ltac:(lia)).
    split; [apply Z.div_pos; lia | apply Z.div_lt_upper_bound; lia]. }
  eexists _, _. split; [reflexivity|]. split; [reflexivity|].
  cbn -[zpad String.append]. rewrite !append_nil_r.
  repeat first [rewrite append_length | progress cbn [String.length]].
  rewrite Hlen, (proj1 (zpad2_ok d ltac:(lia))), (proj1 (zpad4_ok y ltac:(lia))).
  rewrite (proj1 (zpad2_ok _ Hhour)), (proj1 (zpad2_ok _ Hmin)).
  split; reflexivity.
Qed.

Lemma listing_timestamp_width_witness :
  exists old recent,
    format_mtime "%d  %Y" (gmtime 1662090420) = Ok old /\
    format_mtime "%d %H:%M" (gmtime 1662090420) = Ok recent /\
    String.length old = 12%nat /\
    String.length recent = 12%nat.
Proof. apply (listing_timestamp_width 1662090420). lia. Defined.

(** X13: when two identifiers collide.  For clock readings with fields in
    range, [sanitize_file_name] gives the same identifier for two uploads
    exactly when the readings agree down to the second and the two names
    have the same slug. *)
Theorem sanitize_file_name_collisions (slugify : string -> string)
    (now1 now2 : datetime) (name1 name2 : string) :
  valid_datetime now1 = true -> valid_datetime now2 = true ->
  (sanitize_file_name slugify now1 name1 = sanitize_file_name slugify now2 name2
   <-> timetuple now1 = timetuple now2 /\ slugify name1 = slugify name2).
Proof.
  intros Hv1 Hv2. unfold sanitize_file_name. split.
  - rewrite !strftime_timestamp. intros H.
    apply append_inj_length in H as [Ht Hs];
      [|rewrite !timestamp_text_length by assumption; reflexivity].
    apply (append_inj_length " - " " - ") in Hs as [_ Hs]; [|reflexivity].
    split; [apply timestamp_text_inj; assumption | exact Hs].
  - intros [Ht Hs]. rewrite Ht, Hs. reflexivity.
Qed.

Lemma sanitize_file_name_collisions_witness :
  sanitize_file_name (fun s => "x")
    {| year := 2022; month := 9; day := 2; hour := 3; minute := 47;
       second := 0; microsecond := 1 |} "a.txt"
  = sanitize_file_name (fun s => "x")
    {| year := 2022; month := 9; day := 2; hour := 3; minute := 47;
       second := 0; microsecond := 999999 |} "b.txt".
Proof.
  apply (sanitize_file_name_collisions (fun s => "x")
           {| year := 2022; month := 9; day := 2; hour := 3; minute := 47;
              second := 0; microsecond := 1 |}
           {| year := 2022; month := 9; day := 2; hour := 3; minute := 47;
              second := 0; microsecond := 999999 |} "a.txt" "b.txt").
  - reflexivity.
  - reflexivity.
  - split; reflexivity.
Defined.

(** * [__getattr__] *)

(** X14: [__getattr__] resolves an alias once and then asks [home_fs] only
    for the resolved name.  An aliased name is answered as its target is
    without any alias table, even if the target is itself an alias; when the
    target is missing the call raises [FilesystemError] although [home_fs]
    may have an attribute under the name asked for; and whatever is returned
    is an attribute of [home_fs]. *)
Theorem getattr_resolves_alias_once {A : Type} (command_alias : gmap string string)
    (attrs : string -> option A) (item : string) :
  (forall target, command_alias !! item = Some target ->
     __getattr__ command_alias attrs item = __getattr__ ∅ attrs target /\
     (attrs target = None ->
      __getattr__ command_alias attrs item = RaiseFilesystemError)) /\
  (command_alias !! item = None ->
   __getattr__ command_alias attrs item = __getattr__ ∅ attrs item) /\
  (forall a, __getattr__ command_alias attrs item = Attribute a ->
     exists name, attrs name = Some a).
Proof.
  unfold __getattr__. split; [|split].
  - intros target Ht. rewrite Ht, lookup_empty. split; [reflexivity|].
    intros Hmiss. rewrite Hmiss. reflexivity.
  - intros Hn. rewrite Hn, lookup_empty. reflexivity.
  - intros a H. destruct (command_alias !! item) as [target|].
    + exists target. destruct (attrs target); [congruence | discriminate].
    + exists item. destruct (attrs item); [congruence | discriminate].
Qed.

Lemma getattr_resolves_alias_once_witness :
  __getattr__ (<[ "LIST" := "listdir" ]> (<[ "listdir" := "scandir" ]> ∅))
    (fun name => if String.eqb name "listdir" then Some 1 else
                 if String.eqb name "LIST" then Some 2 else None) "LIST"
  = Attribute 1.
Proof.
  destruct (getattr_resolves_alias_once
              (<[ "LIST" := "listdir" ]> (<[ "listdir" := "scandir" ]> ∅))
              (fun name => if String.eqb name "listdir" then Some 1 else
                           if String.eqb name "LIST" then Some 2 else None)
              "LIST") as [H _].
  destruct (H "listdir" eq_refl) as [-> _]. reflexivity.
Defined.

(** * Further properties of the constructor and of [chdir] *)

Lemma split_slash_cons (s : string) : exists x xs, split_slash s = x :: xs.
Proof.
  induction s as [|c s [x [xs IH]]]; simpl; [eauto|].
  destruct (Ascii.eqb c "/"); [eauto|]. rewrite IH. eauto.
Qed.

(** Splitting a text that ends in ["/" + t] splits the two parts apart. *)
Lemma split_slash_append (s t : string) :
  split_slash (s +:+ String "/" t) = (split_slash s ++ split_slash t)%list.
Proof.
  induction s as [|c s IH]; simpl.
  - reflexivity.
  - rewrite IH. destruct (Ascii.eqb c "/"); [reflexivity|].
    destruct (split_slash_cons s) as [x [xs ->]]. reflexivity.
Qed.

Lemma norm_components_app (todo more : list string) :
  forall kept r,
    norm_components todo kept = Some r ->
    norm_components (todo ++ more) kept = norm_components more (rev r).
Proof.
  induction todo as [|c todo IH]; simpl; intros kept r H.
  - inversion H. rewrite rev_involutive. reflexivity.
  - destruct (String.eqb c "" || String.eqb c "."); [apply IH, H|].
    destruct (String.eqb c ".."); [|apply IH, H].
    destruct kept as [|k kept']; [discriminate | apply IH, H].
Qed.

(** X15: every jail the constructor builds for a single-component protocol
    name can be left by one call: [chdir("/..")] succeeds, and the working
    directory it leaves resolves to the root of the store, which is not at
    or below home. *)
Theorem chdir_dotdot_leaves_any_new_jail (fs_root fs_root' : MemFS)
    (dir_st : stat_dict) (protocol_name a : string) (src : MemFS)
    (jail : AbstractFS) :
  normpath ("/" +:+ protocol_name) = Some [a] ->
  __init__ fs_root dir_st protocol_name src = Ok (jail, fs_root') ->
  at_or_below (home jail) (cwd jail) = true /\
  exists jail',
    chdir jail "/.." = Ok jail' /\
    getcwd jail' = home jail +:+ "/.." /\
    normpath (getcwd jail') = Some [] /\
    at_or_below (home jail') (getcwd jail') = false.
Proof.
  intros Hn Hinit.
  apply init_inversion in Hinit as (p & Hp & _ & _ & -> & ->).
  assert (p = [a]) by congruence. subst p. clear Hp.
  remember ("/" +:+ protocol_name) as h eqn:Hh. clear Hh.
  assert (Hup : normpath (h +:+ "/..") = Some []).
  { unfold normpath in *. rewrite split_slash_append.
    rewrite (norm_components_app _ _ _ _ Hn). reflexivity. }
  unfold home, cwd, getcwd, at_or_below. cbn [_home _cwd]. split.
  - rewrite Hn. simpl. rewrite String.eqb_refl. reflexivity.
  - rewrite chdir_nonempty by discriminate. cbn [_home _cwd home_fs SubFS fs_isdir].
    unfold delegate_path. rewrite Hup. cbn [bind app].
    rewrite mirror_lookup_dst. cbn [node_is_dir].
    eexists. split; [reflexivity|]. cbn [set_cwd _home _cwd].
    split; [reflexivity|]. split; [exact Hup|].
    rewrite Hn, Hup. reflexivity.
Qed.

Lemma chdir_dotdot_leaves_any_new_jail_witness :
  at_or_below (home tftp_jail) (cwd tftp_jail) = true /\
  exists jail',
    chdir tftp_jail "/.." = Ok jail' /\
    getcwd jail' = home tftp_jail +:+ "/.." /\
    normpath (getcwd jail') = Some [] /\
    at_or_below (home jail') (getcwd jail') = false.
Proof.
  exact (chdir_dotdot_leaves_any_new_jail demo_store tftp_store demo_dir_stat
           "tftp" "tftp" nested_src tftp_jail eq_refl tftp_jail_init).
Defined.

Lemma sum_lengths_concat (chunks : list (list Byte.byte)) :
  foldr Z.add 0 (map (fun data => Z.of_nat (length data)) chunks)
  = Z.of_nat (length (concat chunks)).
Proof.
  induction chunks as [|data more IH]; simpl; [reflexivity|].
  rewrite IH, length_app. lia.
Qed.

(** X17: the byte counts add up.  After a successful upload the counts that
    the [write_chunk] calls returned sum to the size of the file stored
    under the name. *)
Theorem upload_counts_add_up (file_name : string)
    (chunks : list (list Byte.byte)) (counts : list Z)
    (disk disk' : gmap string (list Byte.byte)) :
  FileWriter.upload file_name chunks disk = Ok (counts, disk') ->
  exists content,
    disk' !! file_name = Some content /\
    foldr Z.add 0 counts = Z.of_nat (length content).
Proof.
  intros H. destruct (disk !! file_name) as [c|] eqn:E.
  - rewrite upload_present in H by (rewrite E; eauto). discriminate.
  - rewrite (upload_fresh _ _ _ E) in H. inversion H; subst.
    exists (concat chunks). rewrite lookup_insert_eq. split; [reflexivity|].
    apply sum_lengths_concat.
Qed.

Lemma upload_counts_add_up_witness :
  exists content,
    ({[ "a.bin" := demo_bytes ]} : gmap string (list Byte.byte)) !! "a.bin"
      = Some content /\
    foldr Z.add 0 [2; 0; 1] = Z.of_nat (length content).
Proof.
  apply (upload_counts_add_up "a.bin" [[Byte.x49; Byte.x44]; []; [Byte.x33]]
           [2; 0; 1] ∅).
  reflexivity.
Defined.
